(** * briefcase.platforms.windows.msi

    A shallow embedding of [src/briefcase/platforms/windows/msi.py]: the
    WiX tool check, the support package URL, the [._pth] file written into
    the support package, the three-stage MSI build and the run command.

    Python strings are [string], [pathlib] paths are records of parsed
    parts, and the commands run in a state-and-exception monad over the
    command object ([self]), the operating system's view (environment and
    file system), the console and the record of [subprocess.run] calls. *)

From Stdlib Require Import Ascii NArith ZArith Lia DecimalString DecimalPos DecimalN.
From stdpp Require Import base option list strings gmap.


(** ** Python strings *)

Module Str.

(** The characters the source spells with an escape. *)
Definition nl : string := String "010"%char "".
Definition dquote : string := String "034"%char "".
Definition backslash : string := String "092"%char "".

(** [str(n)] for a non-negative [int]. *)
Definition of_N (n : N) : string := NilZero.string_of_uint (N.to_uint n).

(** [sep.join(l)] *)
Fixpoint join (sep : string) (l : list string) : string :=
  match l with
  | [] => ""
  | [x] => x
  | x :: l' => x +:+ sep +:+ join sep l'
  end.

(** [s.split(c)] for a one-character separator: the fields between the
    occurrences of [c], of which there is always at least one. *)
Fixpoint split (c : ascii) (s : string) : list string :=
  match s with
  | EmptyString => [""]
  | String a s' =>
      if Ascii.eqb a c then "" :: split c s'
      else match split c s' with
           | [] => [String a ""]
           | f :: fs => String a f :: fs
           end
  end.

(** [s.replace(a, b)] for one-character [a] and [b]. *)
Fixpoint replace (a b : ascii) (s : string) : string :=
  match s with
  | EmptyString => ""
  | String c s' => String (if Ascii.eqb c a then b else c) (replace a b s')
  end.

(** [s.lstrip(c)] for a one-character [c]. *)
Fixpoint lstrip (c : ascii) (s : string) : string :=
  match s with
  | String a s' => if Ascii.eqb a c then lstrip c s' else s
  | EmptyString => ""
  end.

(** [c in s] *)
Fixpoint mem (c : ascii) (s : string) : bool :=
  match s with
  | EmptyString => false
  | String a s' => Ascii.eqb a c || mem c s'
  end.

(** [sub in s] *)
Fixpoint contains (sub s : string) : bool :=
  String.prefix sub s ||
  match s with
  | EmptyString => false
  | String _ s' => contains sub s'
  end.

(** Python's truth value of a string: non-empty. *)
Definition truthy (s : string) : bool :=
  match s with EmptyString => false | _ => true end.

Definition lines (l : list string) : string :=
  String.concat "" (map (fun x => x +:+ nl) l).

End Str.

(** ** [pathlib] pure paths

    A path is held parsed, as [pathlib] holds it: a drive, a root and the
    list of parts, whose first element is the anchor (drive and root) when
    there is one.  How a string splits into drive, root and rest depends on
    the host ([PurePosixPath] or [PureWindowsPath]); that is the flavour. *)

Record Flavour := {
  sep : ascii;
  altsep : option ascii;
  splitroot : string -> string * string * string;
  casefold : string -> string;
}.

Record PurePath := { drv : string; root : string; parts : list string }.

Module pathlib.
Section Flavoured.

Variable fl : Flavour.

Definition normsep (part : string) : string :=
  match altsep fl with
  | Some a => Str.replace a (sep fl) part
  | None => part
  end.

Definition keep (x : string) : bool :=
  Str.truthy x && negb (String.eqb x ".").

(** The components of the part of an argument that follows its anchor. *)
Definition components (rel : string) : list string :=
  if Str.mem (sep fl) rel then filter (fun x => Is_true (keep x)) (Str.split (sep fl) rel)
  else if keep rel then [rel] else [].

(** The inner loop of [parse_parts]: the drive of the nearest earlier
    argument that has one. *)
Fixpoint find_drv (it : list string) : string :=
  match it with
  | [] => ""
  | part :: it' =>
      if Str.truthy part then
        let d := (splitroot fl (normsep part)).1.1 in
        if Str.truthy d then d else find_drv it'
      else find_drv it'
  end.

(** [parse_parts], walking the arguments from the last to the first;
    [acc] holds the components already found, in path order. *)
Fixpoint parse_rev (it : list string) (acc : list string)
  : string * string * list string :=
  match it with
  | [] => ("", "", acc)
  | part :: it' =>
      if Str.truthy part then
        let '(d, r, rel) := splitroot fl (normsep part) in
        let acc' := components rel ++ acc in
        if Str.truthy d || Str.truthy r then
          let d' := if Str.truthy d then d else find_drv it' in
          (d', r, (d' +:+ r) :: acc')
        else parse_rev it' acc'
      else parse_rev it' acc
  end.

Definition parse_parts (args : list string) : string * string * list string :=
  parse_rev (rev args) [].

(** [Path(arg)] *)
Definition Path (arg : string) : PurePath :=
  let '(d, r, p) := parse_parts [arg] in {| drv := d; root := r; parts := p |}.

Definition join_parsed_parts (p : PurePath) (drv2 root2 : string) (parts2 : list string)
  : PurePath :=
  if Str.truthy root2 then
    if negb (Str.truthy drv2) && Str.truthy (drv p) then
      {| drv := drv p; root := root2; parts := (drv p +:+ root2) :: tail parts2 |}
    else {| drv := drv2; root := root2; parts := parts2 |}
  else if Str.truthy drv2 then
    if String.eqb drv2 (drv p) || String.eqb (casefold fl drv2) (casefold fl (drv p)) then
      {| drv := drv p; root := root p; parts := parts p ++ tail parts2 |}
    else {| drv := drv2; root := root2; parts := parts2 |}
  else {| drv := drv p; root := root p; parts := parts p ++ parts2 |}.

(** [p / key] *)
Definition truediv (p : PurePath) (key : string) : PurePath :=
  let '(d, r, ps) := parse_parts [key] in join_parsed_parts p d r ps.

Definition format_parsed_parts (p : PurePath) : string :=
  if Str.truthy (drv p) || Str.truthy (root p) then
    drv p +:+ root p +:+ Str.join (String (sep fl) "") (tail (parts p))
  else Str.join (String (sep fl) "") (parts p).

(** [str(p)] *)
Definition str (p : PurePath) : string :=
  let s := format_parsed_parts p in
  if Str.truthy s then s else ".".

(** [p.parent] *)
Definition parent (p : PurePath) : PurePath :=
  if (length (parts p) =? 1)%nat && (Str.truthy (drv p) || Str.truthy (root p)) then p
  else {| drv := drv p; root := root p; parts := removelast (parts p) |}.

(** [bool(p)]: a path defines neither [__bool__] nor [__len__], so
    every path object is true, the empty one included. *)
Definition truthy (p : PurePath) : bool := true.

End Flavoured.

(** [PurePosixPath]'s flavour. *)
Definition posix_splitroot (part : string) : string * string * string :=
  match part with
  | String "/" _ =>
      let stripped := Str.lstrip "/" part in
      if (String.length part - String.length stripped =? 2)%nat
      then ("", "//", stripped) else ("", "/", stripped)
  | _ => ("", "", part)
  end.

Definition posix : Flavour :=
  {| sep := "/"; altsep := None; splitroot := posix_splitroot; casefold := id |}.

End pathlib.

(** ** The world a command runs in *)

(** [briefcase.config.BaseConfig], as far as this module reads it. *)
Record BaseConfig := {
  name : string;
  formal_name : string;
  version : string;
  module_name : string;
}.

(** The command object: [platform_path] comes from the base command, the
    three tool paths are attributes that exist once they are assigned. *)
Record Command := {
  platform_path : PurePath;
  heat_exe : option PurePath;
  light_exe : option PurePath;
  candle_exe : option PurePath;
}.

(** The operating system, as seen through [os.getenv], [Path.exists] and
    [Path.open]: files and directories are known by the path string they
    are reached with.  It may refuse to examine a path ([stat] fails with
    an error other than "no such file": permission denied, name too long),
    refuse to open one for writing, or fail to take what is written to
    one (device full). *)
Record OS := {
  environ : gmap string string;
  files : gmap string string;
  dirs : gset string;
  stat_fails : gset string;
  open_fails : gset string;
  write_fails : gset string;
}.

(** The system with other files. *)
Definition set_files (fs : gmap string string) (o : OS) : OS :=
  {| environ := environ o; files := fs; dirs := dirs o;
     stat_fails := stat_fails o; open_fails := open_fails o;
     write_fails := write_fails o |}.

(** One call of [subprocess.run]. *)
Record Call := {
  args : list string;
  check : bool;
  cwd : option string;
}.

(** What becomes of a started command: it exits with a return code, or
    it cannot be started at all. *)
Inductive Outcome :=
| Exited (returncode : Z)
| NotStarted.

Inductive exn :=
| BriefcaseCommandError (msg : string)
| CalledProcessError (returncode : Z) (cmd : list string)
| OSError
| AttributeError (attr : string).

Inductive result (A : Type) :=
| Ok (a : A)
| Raise (e : exn).
Arguments Ok {A} a.
Arguments Raise {A} e.

Record State := {
  self : Command;
  os : OS;
  stdout : list string;
  calls : list Call;
}.

Definition M (A : Type) : Type := State -> result A * State.

Module Run.

Definition ret {A} (a : A) : M A := fun st => (Ok a, st).

Definition bind {A B} (m : M A) (k : A -> M B) : M B :=
  fun st =>
    match m st with
    | (Ok a, st') => k a st'
    | (Raise e, st') => (Raise e, st')
    end.

Definition raise {A} (e : exn) : M A := fun st => (Raise e, st).

Definition gets {A} (f : State -> A) : M A := fun st => (Ok (f st), st).

Definition modify (f : State -> State) : M unit := fun st => (Ok tt, f st).

(** [try: body / except subprocess.CalledProcessError: handler] *)
Definition try_except_CalledProcessError {A} (body handler : M A) : M A :=
  fun st =>
    match body st with
    | (Raise (CalledProcessError _ _), st') => handler st'
    | r => r
    end.

End Run.

#[global] Instance M_ret : MRet M := @Run.ret.
#[global] Instance M_bind : MBind M := fun A B k m => Run.bind m k.

Definition set_self (c : Command) (st : State) : State :=
  {| self := c; os := os st; stdout := stdout st; calls := calls st |}.
Definition set_os (o : OS) (st : State) : State :=
  {| self := self st; os := o; stdout := stdout st; calls := calls st |}.
Definition set_stdout (out : list string) (st : State) : State :=
  {| self := self st; os := os st; stdout := out; calls := calls st |}.
Definition set_calls (cs : list Call) (st : State) : State :=
  {| self := self st; os := os st; stdout := stdout st; calls := cs |}.

(** [print(line)]; [print()] is [print ""]. *)
Definition print (line : string) : M unit :=
  Run.modify (fun st => set_stdout (stdout st ++ [line]) st).

(** Reading an attribute of [self] that may not have been assigned. *)
Definition getattr (f : Command -> option PurePath) (attr : string) : M PurePath :=
  fun st =>
    match f (self st) with
    | Some p => (Ok p, st)
    | None => (Raise (AttributeError attr), st)
    end.

(** [a and b] on truth values: [b] is evaluated only when [a] is true. *)
Definition py_and (a b : M bool) : M bool :=
  Run.bind a (fun x : bool => if x then b else Run.ret false).

(** [os.getenv(key, default)] *)
Definition getenv (key dflt : string) : M string :=
  Run.gets (fun st => default dflt (environ (os st) !! key)).

(** Whether a file or directory is there. *)
Definition OS_exists (o : OS) (path : string) : bool :=
  bool_decide (is_Some (files o !! path)) || bool_decide (path ∈ dirs o).

(** What [os.stat] answers: the path is found, there is no such path
    (the errors [Path.exists] takes for "no"), or the call fails with
    another [OSError]. *)
Inductive stat_result := Found | NotFound | Failed.

Definition OS_stat (o : OS) (path : string) : stat_result :=
  if bool_decide (path ∈ stat_fails o) then Failed
  else if OS_exists o path then Found else NotFound.

(** [sys.version_info], of which the module reads the first three fields. *)
Record version_info := { major : N; minor : N; micro : N }.

(** ** The module *)

Section msi.

(** The host's path flavour. *)
Variable fl : Flavour.

(** What running an external command does: its outcome and its effect
    on the file system. *)
Variable exec : Call -> OS -> Outcome * OS.

(** The running interpreter: [sys.version_info] and
    [struct.calcsize("P")], the size of a pointer in bytes. *)
Variable sys_version_info : version_info.
Variable calcsize_P : N.

(** Inherited from [CreateCommand], outside this module: where the
    support package goes, and the generic installation of it. *)
Variable support_path : BaseConfig -> M PurePath.
Variable super_install_app_support_package : BaseConfig -> M unit.

Local Notation "p / s" := (pathlib.truediv fl p s).
Local Abbreviation str := (pathlib.str fl).

(** [Path.exists()]: [stat] the path; "no such file" is [False], any
    other [OSError] is raised again. *)
Definition exists_ (p : PurePath) : M bool :=
  fun st =>
    match OS_stat (os st) (str p) with
    | Found => (Ok true, st)
    | NotFound => (Ok false, st)
    | Failed => (Raise OSError, st)
    end.

(** [p.open('w')]: the file is created or truncated; it cannot be when
    the path names a directory or lies in no directory, or when the
    system refuses.  The handle is the path string. *)
Definition open_w (p : PurePath) : M string :=
  fun st =>
    let o := os st in
    if bool_decide (str p ∈ dirs o)
       || negb (bool_decide (str (pathlib.parent p) ∈ dirs o))
       || bool_decide (str p ∈ open_fails o)
    then (Raise OSError, st)
    else (Ok (str p), set_os (set_files (<[str p := ""]> (files o)) o) st).

(** [f.write(data)], as it shows once the file is closed: the data is
    appended, or the system fails to take it and the file stays as it
    was, that is truncated. *)
Definition write (f : string) (data : string) : M unit :=
  fun st =>
    let o := os st in
    if bool_decide (f ∈ write_fails o) then (Raise OSError, st)
    else (Ok tt, set_os (set_files (alter (fun c => c +:+ data) f (files o)) o) st).

(** [self.subprocess.run(args, check=..., cwd=...)] *)
Definition subprocess_run (args : list string) (check : bool) (cwd : option string)
  : M unit :=
  fun st =>
    let call := {| args := args; check := check; cwd := cwd |} in
    let '(out, o') := exec call (os st) in
    let st' := set_calls (calls st ++ [call]) (set_os o' st) in
    match out with
    | NotStarted => (Raise OSError, st')
    | Exited rc =>
        if check && negb (rc =? 0)%Z
        then (Raise (CalledProcessError rc args), st')
        else (Ok tt, st')
    end.

(** *** WindowsMSIMixin *)

Definition output_format : string := "msi".

Definition bundle_path (c : Command) (app : BaseConfig) : PurePath :=
  platform_path c / name app.

Definition binary_path (c : Command) (app : BaseConfig) : PurePath :=
  platform_path c / name app / "SourceDir" / "python" / "pythonw.exe".

Definition distribution_path (c : Command) (app : BaseConfig) : PurePath :=
  platform_path c / (formal_name app +:+ "-" +:+ version app +:+ ".msi").

Definition wix_not_installed : string :=
  Str.lines [
    "";
    "WiX Toolset is not installed.";
    "";
    "Please install the latest stable release from:";
    "";
    "    http://wixtoolset.org/";
    "";
    "If WiX is already installed, set the WIX environment variable to the";
    "install path.";
    "";
    "If you're using Windows 10, you may need to enable the .NET 3.5 framework";
    "before installing WiX. Open the Control Panel, select " +:+ Str.dquote
      +:+ "Programs and Features" +:+ Str.dquote +:+ ",";
    "then " +:+ Str.dquote +:+ "Turn Windows features on or off" +:+ Str.dquote
      +:+ ". Ensure " +:+ Str.dquote +:+ ".NET Framework 3.5 (Includes";
    ".NET 2.0 and 3.0)" +:+ Str.dquote +:+ " is enabled."
  ].

Definition verify_tools : M unit :=
  wix ← getenv "WIX" "";
  let wix_path := pathlib.Path fl wix in
  Run.modify (fun st =>
    let c := self st in
    set_self {| platform_path := platform_path c;
                heat_exe := Some (wix_path / "bin" / "heat.exe");
                light_exe := light_exe c;
                candle_exe := candle_exe c |} st);;
  Run.modify (fun st =>
    let c := self st in
    set_self {| platform_path := platform_path c;
                heat_exe := heat_exe c;
                light_exe := Some (wix_path / "bin" / "light.exe");
                candle_exe := candle_exe c |} st);;
  Run.modify (fun st =>
    let c := self st in
    set_self {| platform_path := platform_path c;
                heat_exe := heat_exe c;
                light_exe := light_exe c;
                candle_exe := Some (wix_path / "bin" / "candle.exe") |} st);;
  ok ← py_and (mret (pathlib.truthy wix_path))
         (py_and (heat ← getattr heat_exe "heat_exe"; exists_ heat)
            (py_and (light ← getattr light_exe "light_exe"; exists_ light)
               (candle ← getattr candle_exe "candle_exe"; exists_ candle)));
  if negb ok
  then Run.raise (BriefcaseCommandError wix_not_installed)
  else mret tt.

(** *** WindowsMSICreateCommand *)

(** ["%s.%s.%s" % sys.version_info[:3]] *)
Definition python_version : string :=
  Str.of_N (major sys_version_info) +:+ "." +:+ Str.of_N (minor sys_version_info)
    +:+ "." +:+ Str.of_N (micro sys_version_info).

Definition arch : string :=
  if (calcsize_P * 8 =? 64)%N then "amd64" else "win32".

Definition support_package_url : string :=
  let version := python_version in
  if String.eqb version "3.7.2" then
    "https://www.python.org/ftp/python/" +:+ version +:+ "/python-" +:+ version
      +:+ ".post1-embed-" +:+ arch +:+ ".zip"
  else
    "https://www.python.org/ftp/python/" +:+ version +:+ "/python-" +:+ version
      +:+ "-embed-" +:+ arch +:+ ".zip".

Definition version_tag : string :=
  Str.of_N (major sys_version_info) +:+ Str.of_N (minor sys_version_info).

Definition install_app_support_package (app : BaseConfig) : M unit :=
  super_install_app_support_package app;;
  support ← support_path app;
  let pth_file := support / ("python" +:+ version_tag +:+ "._pth") in
  f ← open_w pth_file;
  write f ("python" +:+ version_tag +:+ ".zip" +:+ Str.nl);;
  write f ("." +:+ Str.nl);;
  write f ("..\\app" +:+ Str.nl);;
  write f ("..\\app_packages" +:+ Str.nl).

(** *** WindowsMSIBuildCommand *)

Definition build_app (app : BaseConfig) : M unit :=
  print "";;
  print ("[" +:+ name app +:+ "] Building MSI...");;
  Run.try_except_CalledProcessError
    (print "";;
     print "Compiling application manifest...";;
     heat ← getattr heat_exe "heat_exe";
     c ← Run.gets self;
     subprocess_run
       [ str heat;
         "dir";
         "SourceDir";
         "-nologo";
         "-gg";
         "-sfrag";
         "-sreg";
         "-srd";
         "-scom";
         "-dr"; "BRIEFCASE_CONTENT";
         "-cg"; "BRIEFCASE_COMPONENTS";
         "-out"; name app +:+ "-manifest.wxs" ]
       true
       (Some (str (bundle_path c app))))
    (Run.raise (BriefcaseCommandError
       ("Unable to generate manifest for app " +:+ name app +:+ ".")));;
  Run.try_except_CalledProcessError
    (print "";;
     print "Compiling application installer...";;
     candle ← getattr candle_exe "candle_exe";
     c ← Run.gets self;
     subprocess_run
       [ str candle;
         "-nologo";
         "-ext"; "WixUtilExtension";
         "-ext"; "WixUIExtension";
         name app +:+ ".wxs";
         name app +:+ "-manifest.wxs" ]
       true
       (Some (str (bundle_path c app))))
    (Run.raise (BriefcaseCommandError
       ("Unable to compile app " +:+ name app +:+ ".")));;
  Run.try_except_CalledProcessError
    (print "";;
     print "Linking application installer...";;
     light ← getattr light_exe "light_exe";
     c ← Run.gets self;
     subprocess_run
       [ str light;
         "-nologo";
         "-ext"; "WixUtilExtension";
         "-ext"; "WixUIExtension";
         "-o"; str (distribution_path c app);
         name app +:+ ".wixobj";
         name app +:+ "-manifest.wixobj" ]
       true
       (Some (str (bundle_path c app))))
    (print "";;
     Run.raise (BriefcaseCommandError
       ("Unable to link app " +:+ name app +:+ "."))).

(** *** WindowsMSIRunCommand *)

Definition run_app (app : BaseConfig) : M unit :=
  print "";;
  print ("[" +:+ name app +:+ "] Starting app...");;
  Run.try_except_CalledProcessError
    (print "";;
     c ← Run.gets self;
     subprocess_run [ str (binary_path c app); "-m"; module_name app ] true None)
    (print "";;
     Run.raise (BriefcaseCommandError
       ("Unable to start app " +:+ name app +:+ "."))).

End msi.

(** ** Vocabulary of the statements and test fixtures *)

(** The attributes of [self] once [verify_tools] has assigned the three
    tool paths derived from [wix]. *)
Definition tools_assigned (fl : Flavour) (wix : string) (st : State) : State :=
  let bin := pathlib.truediv fl (pathlib.Path fl wix) "bin" in
  set_self {| platform_path := platform_path (self st);
              heat_exe := Some (pathlib.truediv fl bin "heat.exe");
              light_exe := Some (pathlib.truediv fl bin "light.exe");
              candle_exe := Some (pathlib.truediv fl bin "candle.exe") |} st.

(** What [stat] answers for the tool [exe] under the [bin] directory of
    [wix]. *)
Definition tool_stat (fl : Flavour) (wix : string) (st : State) (exe : string)
  : stat_result :=
  OS_stat (os st)
    (pathlib.str fl (pathlib.truediv fl (pathlib.truediv fl (pathlib.Path fl wix) "bin") exe)).

(** The outcome of the guard of [verify_tools] for the answers to the
    three checks, made in this order and only as far as needed. *)
Definition guard_outcome (heat light candle : stat_result) : result unit :=
  match heat with
  | Failed => Raise OSError
  | NotFound => Raise (BriefcaseCommandError wix_not_installed)
  | Found =>
      match light with
      | Failed => Raise OSError
      | NotFound => Raise (BriefcaseCommandError wix_not_installed)
      | Found =>
          match candle with
          | Failed => Raise OSError
          | NotFound => Raise (BriefcaseCommandError wix_not_installed)
          | Found => Ok tt
          end
      end
  end.

(** A machine without [WIX] in the environment, started in a directory
    that holds [bin/heat.exe], [bin/light.exe] and [bin/candle.exe]. *)
Definition wix_in_cwd : State :=
  {| self := {| platform_path := pathlib.Path pathlib.posix "/project/windows";
                heat_exe := None; light_exe := None; candle_exe := None |};
     os := {| environ := ∅;
              files := <["bin/heat.exe" := "MZ"]>
                         (<["bin/light.exe" := "MZ"]>
                            (<["bin/candle.exe" := "MZ"]> ∅));
              dirs := {[ "."; "bin" ]};
              stat_fails := ∅; open_fails := ∅; write_fails := ∅ |};
     stdout := [];
     calls := [] |}.

(** A machine with WiX installed under [/opt/wix] on which [heat.exe],
    though there, cannot be examined. *)
Definition tools_unreadable : State :=
  {| self := {| platform_path := pathlib.Path pathlib.posix "/project/windows";
                heat_exe := None; light_exe := None; candle_exe := None |};
     os := {| environ := <["WIX" := "/opt/wix"]> ∅;
              files := <["/opt/wix/bin/heat.exe" := "MZ"]>
                         (<["/opt/wix/bin/light.exe" := "MZ"]>
                            (<["/opt/wix/bin/candle.exe" := "MZ"]> ∅));
              dirs := {[ "/opt"; "/opt/wix"; "/opt/wix/bin" ]};
              stat_fails := {[ "/opt/wix/bin/heat.exe" ]};
              open_fails := ∅; write_fails := ∅ |};
     stdout := [];
     calls := [] |}.

(** The three commands of the build, for the tool paths [h], [cd], [l]. *)
Definition harvest_call (fl : Flavour) (c : Command) (app : BaseConfig) (h : PurePath) : Call :=
  {| args := [ pathlib.str fl h; "dir"; "SourceDir"; "-nologo"; "-gg"; "-sfrag"; "-sreg";
               "-srd"; "-scom"; "-dr"; "BRIEFCASE_CONTENT"; "-cg"; "BRIEFCASE_COMPONENTS";
               "-out"; name app +:+ "-manifest.wxs" ];
     check := true;
     cwd := Some (pathlib.str fl (bundle_path fl c app)) |}.

Definition compile_call (fl : Flavour) (c : Command) (app : BaseConfig) (cd : PurePath) : Call :=
  {| args := [ pathlib.str fl cd; "-nologo"; "-ext"; "WixUtilExtension"; "-ext";
               "WixUIExtension"; name app +:+ ".wxs"; name app +:+ "-manifest.wxs" ];
     check := true;
     cwd := Some (pathlib.str fl (bundle_path fl c app)) |}.

Definition link_call (fl : Flavour) (c : Command) (app : BaseConfig) (l : PurePath) : Call :=
  {| args := [ pathlib.str fl l; "-nologo"; "-ext"; "WixUtilExtension"; "-ext";
               "WixUIExtension"; "-o"; pathlib.str fl (distribution_path fl c app);
               name app +:+ ".wixobj"; name app +:+ "-manifest.wixobj" ];
     check := true;
     cwd := Some (pathlib.str fl (bundle_path fl c app)) |}.

(** What one stage leaves: the result and the calls made so far, or the
    continuation when the tool exited with 0. *)
Definition stage {A} (out : Outcome) (failure : string) (made : list Call)
    (next : result A * list Call) : result A * list Call :=
  match out with
  | NotStarted => (Raise OSError, made)
  | Exited rc =>
      if (rc =? 0)%Z then next else (Raise (BriefcaseCommandError failure), made)
  end.

(** Reading a tool attribute before a stage: the stage runs when the
    attribute has been assigned. *)
Definition with_tool {A} (tool : option PurePath) (attr : string) (made : list Call)
    (run : PurePath -> result A * list Call) : result A * list Call :=
  match tool with
  | Some p => run p
  | None => (Raise (AttributeError attr), made)
  end.

(** The fixture of [tests/platforms/windows/msi/test_build.py]: a build
    command under [tmp_path] whose subprocess always succeeds, and the app
    [first]. *)
Definition tmp_path : PurePath := pathlib.Path pathlib.posix "/tmp/pytest-0".

Definition build_command : Command :=
  let wix_bin :=
    pathlib.truediv pathlib.posix (pathlib.truediv pathlib.posix tmp_path "wix") "bin" in
  {| platform_path := pathlib.truediv pathlib.posix tmp_path "windows";
     heat_exe := Some (pathlib.truediv pathlib.posix wix_bin "heat.exe");
     light_exe := Some (pathlib.truediv pathlib.posix wix_bin "light.exe");
     candle_exe := Some (pathlib.truediv pathlib.posix wix_bin "candle.exe") |}.

Definition first_app_config : BaseConfig :=
  {| name := "first"; formal_name := "First App"; version := "0.0.1";
     module_name := "first" |}.

Definition mock_run (call : Call) (o : OS) : Outcome * OS := (Exited 0, o).

Definition test_state : State :=
  {| self := build_command;
     os := {| environ := ∅; files := ∅; dirs := ∅;
              stat_fails := ∅; open_fails := ∅; write_fails := ∅ |};
     stdout := [];
     calls := [] |}.

(** A harvest tool that exits with 1, and a compile tool that does. *)
Definition heat_fails (call : Call) (o : OS) : Outcome * OS :=
  match args call with
  | "/tmp/pytest-0/wix/bin/heat.exe" :: _ => (Exited 1, o)
  | _ => (Exited 0, o)
  end.

Definition candle_fails (call : Call) (o : OS) : Outcome * OS :=
  match args call with
  | "/tmp/pytest-0/wix/bin/candle.exe" :: _ => (Exited 2, o)
  | _ => (Exited 0, o)
  end.

(** A string that parses to itself as the only component: no anchor, no
    separator, neither empty nor the current-directory marker. *)
Definition single_component (fl : Flavour) (s : string) : Prop :=
  pathlib.parse_parts fl [s] = ("", "", [s]).

(** The invariant of parsed paths: an anchored path has its anchor as
    first part. *)
Definition anchored (p : PurePath) : bool := Str.truthy (drv p) || Str.truthy (root p).

Definition wf_path (p : PurePath) : Prop :=
  anchored p = true -> exists rest, parts p = (drv p +:+ root p) :: rest.

(** The bytes the source writes: four lines, the two directory entries
    spelled with two backslashes each. *)
Definition pth_content (vi : version_info) : string :=
  Str.lines [ "python" +:+ version_tag vi +:+ ".zip"; "."; "..\\app"; "..\\app_packages" ].

(** Following the spec's words: the same four lines with the two
    parent-escaping entries written with one host separator between the
    components. *)
Definition spec_pth_content (host_sep : ascii) (vi : version_info) : string :=
  Str.lines [ "python" +:+ version_tag vi +:+ ".zip"; ".";
              ".." +:+ String host_sep "app";
              ".." +:+ String host_sep "app_packages" ].

(** The file a run writes: the [._pth] file under what [support_path]
    returns after the inherited installation. *)
Definition pth_target (fl : Flavour) (vi : version_info)
    (support_path : BaseConfig -> M PurePath) (super_install : BaseConfig -> M unit)
    (app : BaseConfig) (st : State) : option (PurePath * State) :=
  match super_install app st with
  | (Ok _, sa) =>
      match support_path app sa with
      | (Ok support, sb) =>
          Some (pathlib.truediv fl support ("python" +:+ version_tag vi +:+ "._pth"), sb)
      | _ => None
      end
  | _ => None
  end.

(** Whether [p.open('w')] succeeds. *)
Definition openable (fl : Flavour) (o : OS) (p : PurePath) : bool :=
  negb (bool_decide (pathlib.str fl p ∈ dirs o))
  && bool_decide (pathlib.str fl (pathlib.parent p) ∈ dirs o)
  && negb (bool_decide (pathlib.str fl p ∈ open_fails o)).

(** Whether [p.open('w')] succeeds and what is written is taken. *)
Definition writable (fl : Flavour) (o : OS) (p : PurePath) : bool :=
  openable fl o p && negb (bool_decide (pathlib.str fl p ∈ write_fails o)).

Definition with_file (path content : string) (st : State) : State :=
  set_os (set_files (<[path := content]> (files (os st))) (os st)) st.

(** Running the installation for each app of a list in turn. *)
Fixpoint for_each (install : BaseConfig -> M unit) (apps : list BaseConfig) : M unit :=
  match apps with
  | [] => mret tt
  | app :: apps' => Run.bind (install app) (fun _ => for_each install apps')
  end.

(** Python 3.7 on a POSIX host, a support directory that exists, and the
    inherited steps reduced to returning it. *)
Definition py37 : version_info := {| major := 3; minor := 7; micro := 4 |}.

Definition support_dir : PurePath := pathlib.Path pathlib.posix "/bundle/support".

Definition pth_state : State :=
  {| self := build_command;
     os := {| environ := ∅;
              files := <["/bundle/support/python37._pth" := "python37.zip"]> ∅;
              dirs := {[ "/bundle"; "/bundle/support" ]};
              stat_fails := ∅; open_fails := ∅; write_fails := ∅ |};
     stdout := [];
     calls := [] |}.

Definition no_install (app : BaseConfig) : M unit := mret tt.

Definition fixed_support (support : PurePath) (app : BaseConfig) : M PurePath :=
  mret support.

(** Unfolding the monad's operations. *)

Ltac run_unfold :=
  unfold py_and, mbind, M_bind, mret, M_ret, Run.bind, Run.ret, Run.raise, Run.gets,
    Run.modify, Run.try_except_CalledProcessError, print, getattr, getenv,
    exists_ in *.

(** Taking the cases of a run apart: the attributes read, the outcome of
    each command, whether a return code is zero. *)
Ltac run_cases :=
  repeat (cbn;
          match goal with
          | |- context [match ?x with _ => _ end] =>
              lazymatch x with
              | context [match _ with _ => _ end] => fail
              | _ => destruct x eqn:?
              end
          end);
  cbn.

(** A link tool that exits with 3, and tools that cannot be started. *)
Definition light_fails (call : Call) (o : OS) : Outcome * OS :=
  match args call with
  | "/tmp/pytest-0/wix/bin/light.exe" :: _ => (Exited 3, o)
  | _ => (Exited 0, o)
  end.

Definition heat_missing (call : Call) (o : OS) : Outcome * OS := (NotStarted, o).



(** The parts of a path below its anchor. *)
Definition below_anchor (p : PurePath) : list string :=
  if anchored p then tail (parts p) else parts p.

(** A path that prints as itself: parsed, with a part below the anchor
    and a non-empty text. *)
Definition printable (fl : Flavour) (p : PurePath) : Prop :=
  wf_path p /\ below_anchor p <> []
  /\ Str.truthy (pathlib.format_parsed_parts fl p) = true.

(** An app without a name, and one whose name has two components. *)
Definition unnamed_app : BaseConfig :=
  {| name := ""; formal_name := "First App"; version := "0.0.1";
     module_name := "first" |}.

Definition nested_app : BaseConfig :=
  {| name := "tools/first"; formal_name := "First App"; version := "0.0.1";
     module_name := "first" |}.

(** An app whose name is an absolute path. *)
Definition rooted_app : BaseConfig :=
  {| name := "/srv/first"; formal_name := "First App"; version := "0.0.1";
     module_name := "first" |}.

(** * Properties *)

Example posix_path_ex1 :
  pathlib.str pathlib.posix
    (pathlib.truediv pathlib.posix (pathlib.Path pathlib.posix "/tmp/base") "windows")
  = "/tmp/base/windows".
Proof. reflexivity. Qed.

(** ** The support package URL *)

(** C6: for the repackaged release, the one whose formatted version is
    "3.7.2", the URL is the variant one, with [.post1] after the version,
    whatever the pointer size. *)
Theorem support_package_url_repackaged (vi : version_info) (calcsize_P : N) :
  python_version vi = "3.7.2" ->
  support_package_url vi calcsize_P =
    "https://www.python.org/ftp/python/3.7.2/python-3.7.2.post1-embed-"
      +:+ (if (calcsize_P * 8 =? 64)%N then "amd64" else "win32") +:+ ".zip"
  /\ support_package_url vi calcsize_P <>
    "https://www.python.org/ftp/python/3.7.2/python-3.7.2-embed-"
      +:+ (if (calcsize_P * 8 =? 64)%N then "amd64" else "win32") +:+ ".zip".
Proof.
  intros Hv. unfold support_package_url, arch. rewrite Hv. simpl.
  split; [reflexivity|]. destruct (calcsize_P * 8 =? 64)%N; discriminate.
Qed.

Lemma support_package_url_repackaged_witness :
  python_version {| major := 3; minor := 7; micro := 2 |} = "3.7.2"
  /\ support_package_url {| major := 3; minor := 7; micro := 2 |} 8 =
       "https://www.python.org/ftp/python/3.7.2/python-3.7.2.post1-embed-amd64.zip"
  /\ support_package_url {| major := 3; minor := 7; micro := 2 |} 4 =
       "https://www.python.org/ftp/python/3.7.2/python-3.7.2.post1-embed-win32.zip".
Proof.
  split; [reflexivity|]. split.
  - exact (proj1 (support_package_url_repackaged
                    {| major := 3; minor := 7; micro := 2 |} 8 eq_refl)).
  - exact (proj1 (support_package_url_repackaged
                    {| major := 3; minor := 7; micro := 2 |} 4 eq_refl)).
Defined.

(** C5: for every version whose formatted form is not "3.7.2", the URL is
    the standard template filled with [major.minor.micro] and with
    [amd64] when the word size (eight times the pointer size) is 64,
    [win32] for any other. *)
Theorem support_package_url_standard (vi : version_info) (calcsize_P : N) :
  python_version vi <> "3.7.2" ->
  let version :=
    Str.of_N (major vi) +:+ "." +:+ Str.of_N (minor vi) +:+ "." +:+ Str.of_N (micro vi) in
  let tag := if (calcsize_P * 8 =? 64)%N then "amd64" else "win32" in
  support_package_url vi calcsize_P =
    "https://www.python.org/ftp/python/" +:+ version +:+ "/python-" +:+ version
      +:+ "-embed-" +:+ tag +:+ ".zip"
  /\ ((calcsize_P * 8 = 64)%N -> tag = "amd64")
  /\ ((calcsize_P * 8 <> 64)%N -> tag = "win32").
Proof.
  intros Hv version tag. unfold support_package_url, arch.
  destruct (String.eqb_spec (python_version vi) "3.7.2") as [E|_]; [contradiction|].
  split; [reflexivity|]. subst tag.
  destruct (N.eqb_spec (calcsize_P * 8) 64); split; intros; congruence.
Qed.

Lemma support_package_url_standard_witness :
  support_package_url {| major := 3; minor := 8; micro := 10 |} 8 =
    "https://www.python.org/ftp/python/3.8.10/python-3.8.10-embed-amd64.zip"
  /\ support_package_url {| major := 3; minor := 7; micro := 3 |} 4 =
    "https://www.python.org/ftp/python/3.7.3/python-3.7.3-embed-win32.zip".
Proof.
  split.
  - refine (proj1 (support_package_url_standard
                     {| major := 3; minor := 8; micro := 10 |} 8 _)).
    vm_compute. discriminate.
  - refine (proj1 (support_package_url_standard
                     {| major := 3; minor := 7; micro := 3 |} 4 _)).
    vm_compute. discriminate.
Defined.

(** *** When the formatted version is "3.7.2" *)

Lemma mem_dot_uint (d : Decimal.uint) :
  Str.mem "." (NilEmpty.string_of_uint d) = false.
Proof. induction d; simpl; auto. Qed.

Lemma of_N_no_dot (n : N) : Str.mem "." (Str.of_N n) = false.
Proof.
  unfold Str.of_N, NilZero.string_of_uint.
  destruct (N.to_uint n) eqn:E; try reflexivity; rewrite <- E; apply mem_dot_uint.
Qed.

Lemma N_to_uint_nonnil (n : N) : N.to_uint n <> Decimal.Nil.
Proof.
  destruct n as [|p]; [discriminate|].
  apply DecimalPos.Unsigned.to_uint_nonnil.
Qed.

Lemma of_N_inj (m n : N) : Str.of_N m = Str.of_N n -> m = n.
Proof.
  unfold Str.of_N. intros H.
  apply DecimalN.Unsigned.to_uint_inj.
  assert (Hm := NilZero.usu (N.to_uint m) (N_to_uint_nonnil m)).
  assert (Hn := NilZero.usu (N.to_uint n) (N_to_uint_nonnil n)).
  congruence.
Qed.

(** Two strings cut at their first dot agree piecewise. *)
Lemma cut_at_dot (a a' r r' : string) :
  Str.mem "." a = false -> Str.mem "." a' = false ->
  a +:+ "." +:+ r = a' +:+ "." +:+ r' -> a = a' /\ r = r'.
Proof.
  revert a'. induction a as [|x a IH]; intros [|y a'] Ha Ha' H; cbn in *.
  - injection H as H. auto.
  - injection H as H1 H2. subst y. cbn in Ha'. discriminate.
  - injection H as H1 H2. subst x. cbn in Ha. discriminate.
  - injection H as H1 H2. subst y.
    apply orb_false_elim in Ha as [_ Ha]. apply orb_false_elim in Ha' as [_ Ha'].
    destruct (IH a' Ha Ha' H2) as [H3 H4]. subst. auto.
Qed.

(** The special case is taken by the triple (3, 7, 2) and by no other. *)
Lemma python_version_372 (vi : version_info) :
  python_version vi = "3.7.2" <-> vi = {| major := 3; minor := 7; micro := 2 |}.
Proof.
  split; [|intros ->; reflexivity].
  destruct vi as [a b c]. unfold python_version. simpl. intros H.
  apply (cut_at_dot _ "3" _ "7.2") in H as [Ha H];
    [|apply of_N_no_dot|reflexivity].
  apply (cut_at_dot _ "7" _ "2") in H as [Hb Hc];
    [|apply of_N_no_dot|reflexivity].
  apply (of_N_inj a 3) in Ha. apply (of_N_inj b 7) in Hb. apply (of_N_inj c 2) in Hc.
  congruence.
Qed.

(** ** The tool check *)

Lemma Path_empty (fl : Flavour) :
  pathlib.Path fl "" = {| drv := ""; root := ""; parts := [] |}.
Proof. reflexivity. Qed.

Lemma stat_found_exists (o : OS) (path : string) :
  OS_stat o path = Found -> OS_exists o path = true.
Proof.
  unfold OS_stat. destruct (bool_decide _); [discriminate|].
  destruct (OS_exists o path); [reflexivity|discriminate].
Qed.

Lemma verify_tools_run (fl : Flavour) (st : State) :
  let wix := default "" (environ (os st) !! "WIX") in
  verify_tools fl st =
    (guard_outcome (tool_stat fl wix st "heat.exe") (tool_stat fl wix st "light.exe")
       (tool_stat fl wix st "candle.exe"),
     tools_assigned fl wix st).
Proof.
  intros wix. unfold verify_tools. run_unfold. cbn. fold wix.
  unfold tools_assigned, tool_stat, set_self; cbn.
  destruct (OS_stat _ _); cbn; [|reflexivity..].
  destruct (OS_stat _ _); cbn; [|reflexivity..].
  destruct (OS_stat _ _); reflexivity.
Qed.

(** C10, as stated, fails: with the three tool files in place,
    [verify_tools] still raises when the system refuses to examine one of
    them, so a raise does not tell that a file is missing. *)
Lemma verify_tools_raises_with_all_tools_present :
  let tool exe := OS_exists (os tools_unreadable) ("/opt/wix/bin/" +:+ exe) in
  environ (os tools_unreadable) !! "WIX" = Some "/opt/wix"
  /\ tool "heat.exe" = true /\ tool "light.exe" = true /\ tool "candle.exe" = true
  /\ (verify_tools pathlib.posix tools_unreadable).1 = Raise OSError
  /\ ~ ((exists e, (verify_tools pathlib.posix tools_unreadable).1 = Raise e)
        <-> ~ (tool "heat.exe" = true /\ tool "light.exe" = true
               /\ tool "candle.exe" = true)).
Proof.
  vm_compute. repeat split.
  intros [H _]. apply H; [eexists; reflexivity | repeat split].
Qed.

(** C10, amended: the test of [wix_path] in the guard never fails and
    an absent or empty [WIX] gives the path of the current directory, so
    the lack of the variable is not what makes the check fail.  The check
    looks for [bin/heat.exe], [bin/light.exe] and [bin/candle.exe] under
    that path, in this order and as far as needed: it returns normally
    exactly when all three are found, raises the WiX error when the first
    one not found is missing, and the system's error when that one cannot
    be examined.  The three attributes are assigned in every case, and
    nothing else changes. *)
Theorem verify_tools_outcome (fl : Flavour) (st : State) :
  let wix_path := pathlib.Path fl (default "" (environ (os st) !! "WIX")) in
  let heat := pathlib.truediv fl (pathlib.truediv fl wix_path "bin") "heat.exe" in
  let light := pathlib.truediv fl (pathlib.truediv fl wix_path "bin") "light.exe" in
  let candle := pathlib.truediv fl (pathlib.truediv fl wix_path "bin") "candle.exe" in
  let found p := OS_stat (os st) (pathlib.str fl p) in
  let assigned :=
    set_self {| platform_path := platform_path (self st);
                heat_exe := Some heat;
                light_exe := Some light;
                candle_exe := Some candle |} st in
  pathlib.truthy wix_path = true
  /\ pathlib.str fl (pathlib.Path fl (default "" (@None string))) = "."
  /\ pathlib.str fl (pathlib.Path fl (default "" (Some ""))) = "."
  /\ ((verify_tools fl st).1 = Ok tt
      <-> found heat = Found /\ found light = Found /\ found candle = Found)
  /\ ((verify_tools fl st).1 = Raise (BriefcaseCommandError wix_not_installed)
      <-> found heat = NotFound
          \/ (found heat = Found /\ found light = NotFound)
          \/ (found heat = Found /\ found light = Found /\ found candle = NotFound))
  /\ ((verify_tools fl st).1 = Raise OSError
      <-> found heat = Failed
          \/ (found heat = Found /\ found light = Failed)
          \/ (found heat = Found /\ found light = Found /\ found candle = Failed))
  /\ (verify_tools fl st).2 = assigned.
Proof.
  intros wix_path heat light candle found assigned.
  rewrite (verify_tools_run fl st). cbn [fst snd].
  unfold tool_stat, tools_assigned.
  fold wix_path. fold heat. fold light. fold candle.
  fold (found heat) (found light) (found candle). fold assigned.
  repeat split; try reflexivity;
    destruct (found heat), (found light), (found candle); cbn.
  all: intuition (cbn in *; congruence).
Qed.

(** C3, at the input where the code departs from it: with [WIX] absent
    from the environment [verify_tools] still returns normally when the
    three tools are found under the current directory. *)
Theorem verify_tools_passes_without_WIX :
  environ (os wix_in_cwd) !! "WIX" = None
  /\ (verify_tools pathlib.posix wix_in_cwd).1 = Ok tt
  /\ calls (verify_tools pathlib.posix wix_in_cwd).2 = [].
Proof. vm_compute. repeat split. Qed.

(** What does hold of C3: the check starts no process; when the tools
    can be examined it raises the message on how to install WiX as soon
    as one of the three files is missing, and returns normally when all
    three are found; when a tool cannot be examined the error is the
    system's. *)
Lemma verify_tools_checks_files (fl : Flavour) (st : State) :
  let tool := tool_stat fl (default "" (environ (os st) !! "WIX")) st in
  calls (verify_tools fl st).2 = calls st
  /\ (tool "heat.exe" <> Failed -> tool "light.exe" <> Failed ->
      tool "candle.exe" <> Failed ->
      tool "heat.exe" = NotFound \/ tool "light.exe" = NotFound
        \/ tool "candle.exe" = NotFound ->
      (verify_tools fl st).1 = Raise (BriefcaseCommandError wix_not_installed))
  /\ (tool "heat.exe" = Found -> tool "light.exe" = Found -> tool "candle.exe" = Found ->
      (verify_tools fl st).1 = Ok tt)
  /\ ((verify_tools fl st).1 <> Ok tt ->
      (verify_tools fl st).1 <> Raise (BriefcaseCommandError wix_not_installed) ->
      (verify_tools fl st).1 = Raise OSError
      /\ (tool "heat.exe" = Failed \/ tool "light.exe" = Failed
          \/ tool "candle.exe" = Failed))
  /\ Str.contains "http://wixtoolset.org/" wix_not_installed = true
  /\ Str.contains "set the WIX environment variable" wix_not_installed = true.
Proof.
  intros tool. rewrite (verify_tools_run fl st). cbn [fst snd]. fold tool.
  split; [reflexivity|].
  split; [|split; [|split; [|split; vm_compute; reflexivity]]].
  - destruct (tool "heat.exe"), (tool "light.exe"), (tool "candle.exe"); cbn;
      intuition congruence.
  - intros -> -> ->. reflexivity.
  - destruct (tool "heat.exe"), (tool "light.exe"), (tool "candle.exe"); cbn;
      intuition congruence.
Qed.

(** ** Running the app *)

(** C9: [run_app] starts one process, the [pythonw.exe] under
    [SourceDir/python] of the bundle with the arguments [-m] and the
    app's module name; when it exits with a non-zero code the error raised
    names the app. *)
Theorem run_app_launches_module (fl : Flavour) (exec : Call -> OS -> Outcome * OS)
    (app : BaseConfig) (st : State) :
  let bundle := pathlib.truediv fl (platform_path (self st)) (name app) in
  let exe :=
    pathlib.truediv fl
      (pathlib.truediv fl (pathlib.truediv fl bundle "SourceDir") "python")
      "pythonw.exe" in
  let call := {| args := [pathlib.str fl exe; "-m"; module_name app];
                 check := true; cwd := None |} in
  let r := run_app fl exec app st in
  calls r.2 = calls st ++ [call]
  /\ r.1 = match (exec call (os st)).1 with
           | Exited rc =>
               if (rc =? 0)%Z then Ok tt
               else Raise (BriefcaseCommandError
                             ("Unable to start app " +:+ name app +:+ "."))
           | NotStarted => Raise OSError
           end.
Proof.
  intros bundle exe call r. subst r.
  unfold run_app, subprocess_run, binary_path. run_unfold. cbn.
  fold bundle. fold exe. fold call.
  destruct (exec call (os st)) as [[rc|] o']; cbn.
  - destruct (rc =? 0)%Z; cbn; split; reflexivity.
  - split; reflexivity.
Qed.

(** ** The build *)

Section build.

Variable fl : Flavour.
Variable exec : Call -> OS -> Outcome * OS.
Variable app : BaseConfig.
Variable st : State.

Lemma build_app_trace :
  let r := build_app fl exec app st in
  (r.1, calls r.2) =
    with_tool (heat_exe (self st)) "heat_exe" (calls st) (fun h =>
      let hc := harvest_call fl (self st) app h in
      let r1 := exec hc (os st) in
      stage r1.1 ("Unable to generate manifest for app " +:+ name app +:+ ".")
        (calls st ++ [hc])
        (with_tool (candle_exe (self st)) "candle_exe" (calls st ++ [hc]) (fun cd =>
           let cc := compile_call fl (self st) app cd in
           let r2 := exec cc r1.2 in
           stage r2.1 ("Unable to compile app " +:+ name app +:+ ".")
             (calls st ++ [hc; cc])
             (with_tool (light_exe (self st)) "light_exe" (calls st ++ [hc; cc]) (fun l =>
                let lc := link_call fl (self st) app l in
                let r3 := exec lc r2.2 in
                stage r3.1 ("Unable to link app " +:+ name app +:+ ".")
                  (calls st ++ [hc; cc; lc])
                  (Ok tt, calls st ++ [hc; cc; lc])))))).
Proof.
  intros r. subst r.
  unfold build_app, subprocess_run. run_unfold. cbn.
  destruct (heat_exe (self st)) as [h|]; cbn; [|reflexivity].
  fold (harvest_call fl (self st) app h).
  destruct (exec (harvest_call fl (self st) app h) (os st)) as [[rc1|] o1]; cbn;
    [|reflexivity].
  destruct (rc1 =? 0)%Z; cbn; [|reflexivity].
  destruct (candle_exe (self st)) as [cd|]; cbn; [|reflexivity].
  fold (compile_call fl (self st) app cd).
  destruct (exec (compile_call fl (self st) app cd) o1) as [[rc2|] o2]; cbn;
    [|rewrite <- app_assoc; reflexivity].
  destruct (rc2 =? 0)%Z; cbn; [|rewrite <- app_assoc; reflexivity].
  destruct (light_exe (self st)) as [l|]; cbn; [|rewrite <- app_assoc; reflexivity].
  fold (link_call fl (self st) app l).
  destruct (exec (link_call fl (self st) app l) o2) as [[rc3|] o3]; cbn;
    [|rewrite <- !app_assoc; reflexivity].
  destruct (rc3 =? 0)%Z; cbn; rewrite <- !app_assoc; reflexivity.
Qed.

End build.

(** C1: with the three tool attributes assigned, [build_app] runs the
    harvest, compile and link commands in that order, each with the
    literal argument vector below and the bundle path as working
    directory, and stops after the first that fails: the calls made are
    the first one, two or three of them, and all three when the build
    returns, which it does when the tools succeed. *)
Theorem build_app_three_stages (fl : Flavour) (exec : Call -> OS -> Outcome * OS)
    (app : BaseConfig) (st : State) (h cd l : PurePath) :
  heat_exe (self st) = Some h ->
  candle_exe (self st) = Some cd ->
  light_exe (self st) = Some l ->
  let bundle := pathlib.str fl (pathlib.truediv fl (platform_path (self st)) (name app)) in
  let msi :=
    pathlib.str fl
      (pathlib.truediv fl (platform_path (self st))
         (formal_name app +:+ "-" +:+ version app +:+ ".msi")) in
  let harvest :=
    {| args := [ pathlib.str fl h; "dir"; "SourceDir"; "-nologo"; "-gg"; "-sfrag";
                 "-sreg"; "-srd"; "-scom"; "-dr"; "BRIEFCASE_CONTENT";
                 "-cg"; "BRIEFCASE_COMPONENTS"; "-out"; name app +:+ "-manifest.wxs" ];
       check := true; cwd := Some bundle |} in
  let compile :=
    {| args := [ pathlib.str fl cd; "-nologo"; "-ext"; "WixUtilExtension";
                 "-ext"; "WixUIExtension"; name app +:+ ".wxs";
                 name app +:+ "-manifest.wxs" ];
       check := true; cwd := Some bundle |} in
  let link :=
    {| args := [ pathlib.str fl l; "-nologo"; "-ext"; "WixUtilExtension";
                 "-ext"; "WixUIExtension"; "-o"; msi; name app +:+ ".wixobj";
                 name app +:+ "-manifest.wixobj" ];
       check := true; cwd := Some bundle |} in
  let r := build_app fl exec app st in
  (exists k, (1 <= k <= 3)%nat /\ calls r.2 = calls st ++ take k [harvest; compile; link])
  /\ (r.1 = Ok tt -> calls r.2 = calls st ++ [harvest; compile; link])
  /\ ((forall call o, (exec call o).1 = Exited 0) ->
      r.1 = Ok tt /\ calls r.2 = calls st ++ [harvest; compile; link]).
Proof.
  intros Hh Hc Hl bundle msi harvest compile link r.
  assert (T := build_app_trace fl exec app st). cbv zeta in T. fold r in T.
  rewrite Hh, Hc, Hl in T. cbn [with_tool] in T.
  change (harvest_call fl (self st) app h) with harvest in T.
  change (compile_call fl (self st) app cd) with compile in T.
  change (link_call fl (self st) app l) with link in T.
  destruct (exec harvest (os st)) as [out1 o1] eqn:E1. cbn [fst snd] in T.
  destruct (exec compile o1) as [out2 o2] eqn:E2. cbn [fst snd] in T.
  destruct (exec link o2) as [out3 o3] eqn:E3. cbn [fst snd] in T.
  assert (A1 : forall call o, (exec call o).1 = Exited 0 ->
               forall out o', exec call o = (out, o') -> out = Exited 0).
  { intros call o H out o' E. rewrite E in H. exact H. }
  unfold stage in T.
  destruct out1 as [rc1|]; [destruct (rc1 =? 0)%Z eqn:Z1|];
    [destruct out2 as [rc2|]; [destruct (rc2 =? 0)%Z eqn:Z2|]|..];
    [destruct out3 as [rc3|]; [destruct (rc3 =? 0)%Z eqn:Z3|]|..];
    injection T as T1 T2; rewrite T1, T2.
  all: split;
    [first [ exists 3%nat; split; [lia|reflexivity]
           | exists 2%nat; split; [lia|reflexivity]
           | exists 1%nat; split; [lia|reflexivity] ]|].
  all: split; [first [reflexivity | discriminate]|].
  all: intros Hok.
  all: try (split; reflexivity).
  all: exfalso.
  all: try (apply (A1 _ _ (Hok _ _)) in E1; injection E1 as ->; discriminate).
  all: try (apply (A1 _ _ (Hok _ _)) in E2; injection E2 as ->; discriminate).
  all: try (apply (A1 _ _ (Hok _ _)) in E3; injection E3 as ->; discriminate).
  all: try (apply (A1 _ _ (Hok _ _)) in E1; discriminate).
  all: try (apply (A1 _ _ (Hok _ _)) in E2; discriminate).
  all: try (apply (A1 _ _ (Hok _ _)) in E3; discriminate).
Qed.

Lemma build_app_three_stages_witness :
  (build_app pathlib.posix mock_run first_app_config test_state).1 = Ok tt
  /\ calls (build_app pathlib.posix mock_run first_app_config test_state).2 =
     [ {| args := [ "/tmp/pytest-0/wix/bin/heat.exe"; "dir"; "SourceDir"; "-nologo"; "-gg";
                    "-sfrag"; "-sreg"; "-srd"; "-scom"; "-dr"; "BRIEFCASE_CONTENT";
                    "-cg"; "BRIEFCASE_COMPONENTS"; "-out"; "first-manifest.wxs" ];
          check := true; cwd := Some "/tmp/pytest-0/windows/first" |};
       {| args := [ "/tmp/pytest-0/wix/bin/candle.exe"; "-nologo"; "-ext";
                    "WixUtilExtension"; "-ext"; "WixUIExtension"; "first.wxs";
                    "first-manifest.wxs" ];
          check := true; cwd := Some "/tmp/pytest-0/windows/first" |};
       {| args := [ "/tmp/pytest-0/wix/bin/light.exe"; "-nologo"; "-ext";
                    "WixUtilExtension"; "-ext"; "WixUIExtension"; "-o";
                    "/tmp/pytest-0/windows/First App-0.0.1.msi"; "first.wixobj";
                    "first-manifest.wixobj" ];
          check := true; cwd := Some "/tmp/pytest-0/windows/first" |} ].
Proof.
  refine (proj2 (proj2 (build_app_three_stages pathlib.posix mock_run first_app_config
                          test_state _ _ _ eq_refl eq_refl eq_refl)) _).
  intros call o. reflexivity.
Defined.

(** C2: when the harvest command exits with a non-zero code, [build_app]
    has made that one call only, neither the compile nor the link command,
    and raises the error that it could not generate the manifest for the
    app; when the harvest succeeds and the compile command exits with a
    non-zero code, the link command is not run and the error is that the
    app could not be compiled. *)
Theorem build_app_stops_at_failure (fl : Flavour) (exec : Call -> OS -> Outcome * OS)
    (app : BaseConfig) (st : State) (h : PurePath) :
  heat_exe (self st) = Some h ->
  let harvest := harvest_call fl (self st) app h in
  let r := build_app fl exec app st in
  (forall rc, (exec harvest (os st)).1 = Exited rc -> rc <> 0%Z ->
     r.1 = Raise (BriefcaseCommandError
                    ("Unable to generate manifest for app " +:+ name app +:+ "."))
     /\ calls r.2 = calls st ++ [harvest])
  /\ (forall cd rc,
        candle_exe (self st) = Some cd ->
        let compile := compile_call fl (self st) app cd in
        (exec harvest (os st)).1 = Exited 0 ->
        (exec compile (exec harvest (os st)).2).1 = Exited rc -> rc <> 0%Z ->
        r.1 = Raise (BriefcaseCommandError
                       ("Unable to compile app " +:+ name app +:+ "."))
        /\ calls r.2 = calls st ++ [harvest; compile]).
Proof.
  intros Hh harvest r.
  assert (T := build_app_trace fl exec app st). cbv zeta in T. fold r in T.
  rewrite Hh in T. cbn [with_tool] in T. fold harvest in T.
  split.
  - intros rc E Hrc. rewrite E in T. cbn [stage] in T.
    apply Z.eqb_neq in Hrc. rewrite Hrc in T.
    injection T as T1 T2. auto.
  - intros cd rc Hc compile E1 E2 Hrc.
    rewrite E1, Hc in T. cbn [stage with_tool Z.eqb] in T. fold compile in T.
    rewrite E2 in T. cbn [stage] in T.
    apply Z.eqb_neq in Hrc. rewrite Hrc in T.
    injection T as T1 T2. auto.
Qed.

Lemma build_app_stops_at_failure_witness :
  ((build_app pathlib.posix heat_fails first_app_config test_state).1 =
     Raise (BriefcaseCommandError "Unable to generate manifest for app first.")
   /\ length (calls (build_app pathlib.posix heat_fails first_app_config test_state).2) = 1%nat)
  /\ ((build_app pathlib.posix candle_fails first_app_config test_state).1 =
        Raise (BriefcaseCommandError "Unable to compile app first.")
      /\ length (calls (build_app pathlib.posix candle_fails first_app_config test_state).2)
         = 2%nat).
Proof.
  split.
  - destruct (proj1 (build_app_stops_at_failure pathlib.posix heat_fails first_app_config
                       test_state _ eq_refl) 1%Z eq_refl ltac:(discriminate)) as [H1 H2].
    split; [exact H1|]. rewrite H2. reflexivity.
  - destruct (proj2 (build_app_stops_at_failure pathlib.posix candle_fails first_app_config
                       test_state _ eq_refl) _ 2%Z eq_refl eq_refl eq_refl
                ltac:(discriminate)) as [H1 H2].
    split; [exact H1|]. rewrite H2. reflexivity.
Defined.

(** ** Paths *)

Section path_facts.

Variable fl : Flavour.

Lemma parse_rev_wf (it acc : list string) d r ps :
  pathlib.parse_rev fl it acc = (d, r, ps) ->
  Str.truthy d || Str.truthy r = true -> exists rest, ps = (d +:+ r) :: rest.
Proof.
  revert acc. induction it as [|part it IH]; intros acc; cbn.
  - intros [= <- <- <-]. discriminate.
  - destruct (Str.truthy part); [|apply IH].
    destruct (splitroot fl (pathlib.normsep fl part)) as [[d0 r0] rel].
    destruct (Str.truthy d0 || Str.truthy r0); [|apply IH].
    intros [= <- <- <-] _. eauto.
Qed.

Lemma Path_wf (arg : string) : wf_path (pathlib.Path fl arg).
Proof.
  unfold wf_path, anchored, pathlib.Path, pathlib.parse_parts.
  destruct (pathlib.parse_rev fl (rev [arg]) []) as [[d r] ps] eqn:E. cbn.
  eapply parse_rev_wf; eauto.
Qed.

Lemma truediv_wf (p : PurePath) (key : string) :
  wf_path p -> wf_path (pathlib.truediv fl p key).
Proof.
  intros Hp. unfold pathlib.truediv, pathlib.parse_parts.
  destruct (pathlib.parse_rev fl (rev [key]) []) as [[d r] ps] eqn:E.
  assert (H2 := parse_rev_wf _ _ _ _ _ E).
  unfold pathlib.join_parsed_parts.
  destruct (Str.truthy r) eqn:Er.
  - destruct (negb (Str.truthy d) && Str.truthy (drv p)) eqn:Ec.
    + intros _. cbn. eauto.
    + unfold wf_path, anchored. cbn. intros _. apply H2.
      apply orb_true_r.
  - destruct (Str.truthy d) eqn:Ed.
    + destruct ((d =? drv p)%string || (casefold fl d =? casefold fl (drv p))%string).
      * unfold wf_path, anchored in *. cbn. intros H.
        destruct (Hp H) as [rest ->]. cbn. eauto.
      * unfold wf_path, anchored. cbn. intros _. apply H2.
        reflexivity.
    + unfold wf_path, anchored in *. cbn. intros H.
      destruct (Hp H) as [rest ->]. cbn. eauto.
Qed.

Lemma truediv_single (p : PurePath) (s : string) :
  single_component fl s ->
  pathlib.truediv fl p s = {| drv := drv p; root := root p; parts := parts p ++ [s] |}.
Proof.
  unfold single_component, pathlib.truediv. intros ->. reflexivity.
Qed.

Lemma parent_truediv_single (p : PurePath) (s : string) :
  wf_path p -> single_component fl s ->
  pathlib.parent (pathlib.truediv fl p s) = p.
Proof.
  intros Hp Hs. rewrite (truediv_single p s Hs).
  unfold pathlib.parent. cbn [parts drv root].
  destruct p as [d r ps]. cbn [parts drv root] in *.
  unfold wf_path, anchored in Hp. cbn in Hp.
  rewrite removelast_last.
  destruct (Str.truthy d || Str.truthy r) eqn:E.
  - destruct (Hp eq_refl) as [rest ->]. cbn.
    rewrite length_app. cbn.
    replace (length rest + 1)%nat with (S (length rest)) by lia. reflexivity.
  - rewrite andb_false_r. reflexivity.
Qed.

End path_facts.

(** On a POSIX host the single components are the non-empty strings
    without a slash, other than the current-directory marker. *)
Lemma posix_single_component (s : string) :
  s <> "" -> s <> "." -> Str.mem "/" s = false ->
  single_component pathlib.posix s.
Proof.
  intros Hne Hdot Hmem. unfold single_component, pathlib.parse_parts. cbn.
  destruct s as [|a s]; [contradiction|]. cbn [Str.truthy].
  unfold pathlib.normsep. cbn [altsep pathlib.posix].
  assert (Ha : pathlib.posix_splitroot (String a s) = ("", "", String a s)).
  { cbn in Hmem. apply orb_false_elim in Hmem as [Ha _].
    unfold pathlib.posix_splitroot.
    destruct a as [[] [] [] [] [] [] [] []]; try reflexivity. discriminate. }
  cbn [splitroot pathlib.posix]. rewrite Ha. cbn [Str.truthy orb].
  unfold pathlib.components. cbn [sep pathlib.posix]. rewrite Hmem.
  unfold pathlib.keep. cbn [Str.truthy andb].
  destruct (String.eqb_spec (String a s) "."); [contradiction|]. reflexivity.
Qed.

(** C8, as stated for every app descriptor, fails: for an app with an
    empty name the bundle path is the platform path itself, and for a
    name of two components it lies two levels below; in both cases the
    installer is not in the directory one level above the bundle. *)
Lemma distribution_path_not_beside_bundle :
  let P := pathlib.posix in
  let beside app :=
    pathlib.truediv P (pathlib.parent (bundle_path P build_command app))
      (formal_name app +:+ "-" +:+ version app +:+ ".msi") in
  distribution_path P build_command unnamed_app <> beside unnamed_app
  /\ pathlib.str P (distribution_path P build_command unnamed_app)
     = "/tmp/pytest-0/windows/First App-0.0.1.msi"
  /\ pathlib.str P (beside unnamed_app) = "/tmp/pytest-0/First App-0.0.1.msi"
  /\ distribution_path P build_command nested_app <> beside nested_app
  /\ pathlib.str P (beside nested_app) = "/tmp/pytest-0/windows/tools/First App-0.0.1.msi".
Proof.
  vm_compute. repeat split; intros [=].
Qed.

(** C8, amended: for an app whose name is a single path component, the
    distribution path is the parent directory of the bundle path joined
    with [<formal name>-<version>.msi], the bundle path being that same
    directory joined with the app's name. *)
Theorem distribution_path_beside_bundle (fl : Flavour) (c : Command) (app : BaseConfig) :
  wf_path (platform_path c) ->
  single_component fl (name app) ->
  let above := pathlib.parent (bundle_path fl c app) in
  bundle_path fl c app = pathlib.truediv fl above (name app)
  /\ distribution_path fl c app =
       pathlib.truediv fl above (formal_name app +:+ "-" +:+ version app +:+ ".msi")
  /\ above = platform_path c.
Proof.
  intros Hwf Hname above.
  assert (Habove : above = platform_path c).
  { subst above. unfold bundle_path. apply parent_truediv_single; assumption. }
  rewrite Habove. repeat split.
Qed.

Lemma distribution_path_beside_bundle_witness :
  wf_path (platform_path build_command)
  /\ single_component pathlib.posix (name first_app_config)
  /\ distribution_path pathlib.posix build_command first_app_config =
       pathlib.truediv pathlib.posix
         (pathlib.parent (bundle_path pathlib.posix build_command first_app_config))
         "First App-0.0.1.msi"
  /\ pathlib.str pathlib.posix
       (pathlib.parent (bundle_path pathlib.posix build_command first_app_config))
     = "/tmp/pytest-0/windows".
Proof.
  assert (Hwf : wf_path (platform_path build_command)).
  { apply truediv_wf, Path_wf. }
  assert (Hname : single_component pathlib.posix (name first_app_config)).
  { reflexivity. }
  split; [exact Hwf|]. split; [exact Hname|].
  destruct (distribution_path_beside_bundle pathlib.posix build_command first_app_config
              Hwf Hname) as (_ & Hd & Ha).
  split; [exact Hd|]. rewrite Ha. reflexivity.
Defined.

(** ** The [._pth] file *)

Lemma append_assoc (a b c : string) : (a +:+ b) +:+ c = a +:+ (b +:+ c).
Proof.
  induction a as [|x a IH]; [reflexivity|].
  change (String x ((a +:+ b) +:+ c) = String x (a +:+ (b +:+ c))).
  f_equal. exact IH.
Qed.

Section pth.

Variable fl : Flavour.
Variable vi : version_info.
Variable support_path : BaseConfig -> M PurePath.
Variable super_install : BaseConfig -> M unit.

Let install := install_app_support_package fl vi support_path super_install.

Lemma install_run (app : BaseConfig) (st : State) :
  install app st =
    match super_install app st with
    | (Ok _, sa) =>
        match support_path app sa with
        | (Ok support, sb) =>
            let target :=
              pathlib.truediv fl support ("python" +:+ version_tag vi +:+ "._pth") in
            if openable fl (os sb) target then
              if bool_decide (pathlib.str fl target ∈ write_fails (os sb))
              then (Raise OSError, with_file (pathlib.str fl target) "" sb)
              else (Ok tt, with_file (pathlib.str fl target) (pth_content vi) sb)
            else (Raise OSError, sb)
        | (Raise e, sb) => (Raise e, sb)
        end
    | (Raise e, sa) => (Raise e, sa)
    end.
Proof.
  unfold install, install_app_support_package. run_unfold.
  destruct (super_install app st) as [[[]|e] sa]; [|reflexivity].
  destruct (support_path app sa) as [[support|e] sb]; [|reflexivity].
  cbv zeta. unfold open_w, openable.
  destruct (bool_decide (_ ∈ dirs (os sb))); cbn [orb negb andb]; [reflexivity|].
  destruct (bool_decide (_ ∈ dirs (os sb))); cbn [orb negb andb]; [|reflexivity].
  destruct (bool_decide (_ ∈ open_fails (os sb))); cbn [orb negb andb]; [reflexivity|].
  unfold write, with_file, set_os, set_files.
  cbn [os self stdout calls environ files dirs stat_fails open_fails write_fails].
  destruct (decide (pathlib.str fl
                      (pathlib.truediv fl support ("python" +:+ version_tag vi +:+ "._pth"))
                    ∈ write_fails (os sb))) as [Hin|Hnin].
  - rewrite !(bool_decide_eq_true_2 _ Hin). reflexivity.
  - rewrite !(bool_decide_eq_false_2 _ Hnin).
    cbn [os self stdout calls environ files dirs stat_fails open_fails write_fails].
    rewrite !alter_insert_eq.
    unfold pth_content, Str.lines. cbn [map String.concat].
    rewrite !append_assoc. reflexivity.
Qed.

Lemma install_run_writable (app : BaseConfig) (st sa sb : State) (support : PurePath) :
  super_install app st = (Ok tt, sa) ->
  support_path app sa = (Ok support, sb) ->
  let target := pathlib.truediv fl support ("python" +:+ version_tag vi +:+ "._pth") in
  install app st =
    if writable fl (os sb) target
    then (Ok tt, with_file (pathlib.str fl target) (pth_content vi) sb)
    else (Raise OSError,
          if openable fl (os sb) target
          then with_file (pathlib.str fl target) "" sb else sb).
Proof.
  intros Hsuper Hsupport target. rewrite install_run, Hsuper, Hsupport. cbv zeta.
  fold target. unfold writable.
  destruct (openable fl (os sb) target); [|reflexivity].
  destruct (bool_decide _); reflexivity.
Qed.

End pth.

(** C4, as stated, fails: on a POSIX host the two directory entries are
    not written with the host's separator, and they are not written with
    one backslash either; each has two. *)
Lemma pth_entries_not_host_separated :
  let r := install_app_support_package pathlib.posix py37 (fixed_support support_dir)
             no_install first_app_config pth_state in
  r.1 = Ok tt
  /\ files (os r.2) !! "/bundle/support/python37._pth" =
       Some (Str.lines [ "python37.zip"; "."; "..\\app"; "..\\app_packages" ])
  /\ files (os r.2) !! "/bundle/support/python37._pth" <>
       Some (spec_pth_content (sep pathlib.posix) py37)
  /\ files (os r.2) !! "/bundle/support/python37._pth" <>
       Some (spec_pth_content "\" py37)
  /\ String.length "..\\app" = 7%nat.
Proof.
  vm_compute. repeat split; intros [=].
Qed.

(** C4, amended: after the inherited installation, the file
    [python<major><minor>._pth] under the support path is created or
    truncated and holds exactly four lines: the name of the zipped
    standard library, the current-directory marker, and the entries for
    [app] and [app_packages], each written as two dots, two backslashes
    and the directory name, whatever the host's separator; no other file
    changes. *)
Theorem pth_file_written (fl : Flavour) (vi : version_info)
    (support_path : BaseConfig -> M PurePath) (super_install : BaseConfig -> M unit)
    (app : BaseConfig) (st sa sb : State) (support : PurePath) :
  super_install app st = (Ok tt, sa) ->
  support_path app sa = (Ok support, sb) ->
  let tag := Str.of_N (major vi) +:+ Str.of_N (minor vi) in
  let target := pathlib.truediv fl support ("python" +:+ tag +:+ "._pth") in
  writable fl (os sb) target = true ->
  let r := install_app_support_package fl vi support_path super_install app st in
  r.1 = Ok tt
  /\ files (os r.2) !! pathlib.str fl target =
       Some (Str.lines
               [ "python" +:+ tag +:+ ".zip";
                 ".";
                 ".." +:+ Str.backslash +:+ Str.backslash +:+ "app";
                 ".." +:+ Str.backslash +:+ Str.backslash +:+ "app_packages" ])
  /\ (forall path, path <> pathlib.str fl target ->
        files (os r.2) !! path = files (os sb) !! path)
  /\ dirs (os r.2) = dirs (os sb).
Proof.
  intros Hsuper Hsupport tag target Hw r. subst r.
  rewrite (install_run_writable fl vi support_path super_install app st sa sb support
             Hsuper Hsupport). cbv zeta.
  change (version_tag vi) with tag. fold target. rewrite Hw. cbn [fst snd].
  unfold with_file, set_os, set_files. cbn [os files dirs].
  split; [reflexivity|]. split; [apply lookup_insert_eq|].
  split; [|reflexivity].
  intros path Hne. apply lookup_insert_ne. congruence.
Qed.

Lemma pth_file_written_witness :
  files (os (install_app_support_package pathlib.posix py37 (fixed_support support_dir)
               no_install first_app_config pth_state).2)
    !! "/bundle/support/python37._pth"
  = Some (Str.lines [ "python37.zip"; "."; "..\\app"; "..\\app_packages" ]).
Proof.
  exact (proj1 (proj2 (pth_file_written pathlib.posix py37 (fixed_support support_dir)
                         no_install first_app_config pth_state pth_state pth_state
                         support_dir eq_refl eq_refl eq_refl))).
Defined.

Section idempotence.

Variable fl : Flavour.
Variable vi : version_info.

Lemma with_file_twice (path content : string) (st : State) :
  with_file path content (with_file path content st) = with_file path content st.
Proof.
  unfold with_file, set_os, set_files. cbn. rewrite insert_insert_eq. reflexivity.
Qed.

(** The write alone, the inherited steps doing nothing: once it has
    succeeded, running it again for any apps changes nothing. *)
Lemma write_again (support : PurePath) (apps : list BaseConfig) (st : State) :
  let install :=
    install_app_support_package fl vi (fixed_support support) no_install in
  let target :=
    pathlib.truediv fl support ("python" +:+ version_tag vi +:+ "._pth") in
  writable fl (os st) target = true ->
  for_each install apps (with_file (pathlib.str fl target) (pth_content vi) st)
  = (Ok tt, with_file (pathlib.str fl target) (pth_content vi) st).
Proof.
  intros install target Hw.
  induction apps as [|app apps IH]; [reflexivity|].
  cbn [for_each]. unfold Run.bind. subst install.
  rewrite (install_run_writable fl vi (fixed_support support) no_install app
             _ _ _ support eq_refl eq_refl).
  cbv zeta. fold target.
  change (writable fl (os (with_file (pathlib.str fl target) (pth_content vi) st)) target)
    with (writable fl (os st) target).
  rewrite Hw, with_file_twice. exact IH.
Qed.

End idempotence.

(** C7: the write is idempotent.  With the inherited steps doing
    nothing, a successful run followed by runs for any other apps leaves
    the state of the first run; and whatever the inherited steps do, the
    file written by any successful run, for any app and from any state,
    holds the same bytes, fixed by the major and minor version. *)
Theorem pth_write_idempotent (fl : Flavour) (vi : version_info) :
  (forall support app apps st st1,
     let install :=
       install_app_support_package fl vi (fixed_support support) no_install in
     install app st = (Ok tt, st1) ->
     for_each install (app :: apps) st = (Ok tt, st1)
     /\ for_each install (app :: app :: apps) st = install app st)
  /\ (forall support_path super_install app st st',
        install_app_support_package fl vi support_path super_install app st = (Ok tt, st') ->
        exists target sb,
          pth_target fl vi support_path super_install app st = Some (target, sb)
          /\ files (os st') !! pathlib.str fl target = Some (pth_content vi))
  /\ (forall vi', major vi' = major vi -> minor vi' = minor vi ->
        pth_content vi' = pth_content vi).
Proof.
  split; [|split].
  - intros support app apps st st1 install Hrun.
    assert (Hrun' := Hrun). unfold install in Hrun'.
    rewrite (install_run_writable fl vi (fixed_support support) no_install app
               _ _ _ support eq_refl eq_refl) in Hrun'.
    cbv zeta in Hrun'.
    destruct (writable fl (os st) _) eqn:Hw in Hrun'; [|discriminate].
    injection Hrun' as <-.
    assert (Hagain := fun apps => write_again fl vi support apps st Hw).
    cbv zeta in Hagain. fold install in Hagain.
    split.
    + cbn [for_each]. unfold Run.bind. rewrite Hrun. apply Hagain.
    + rewrite Hrun. cbn [for_each]. unfold Run.bind. rewrite Hrun.
      apply (Hagain (app :: apps)).
  - intros support_path super_install app st st' Hrun.
    rewrite install_run in Hrun. unfold pth_target.
    destruct (super_install app st) as [[[]|e] sa]; [|discriminate].
    destruct (support_path app sa) as [[support|e] sb]; [|discriminate].
    cbv zeta in Hrun.
    destruct (openable fl (os sb) _); [|discriminate].
    destruct (bool_decide _); [discriminate|].
    injection Hrun as <-.
    eexists _, _. split; [reflexivity|].
    unfold with_file, set_os, set_files. cbn. apply lookup_insert_eq.
  - intros vi' Hmaj Hmin. unfold pth_content, version_tag.
    rewrite Hmaj, Hmin. reflexivity.
Qed.

Lemma pth_write_idempotent_witness :
  let install :=
    install_app_support_package pathlib.posix py37 (fixed_support support_dir) no_install in
  for_each install [first_app_config; first_app_config] pth_state
  = install first_app_config pth_state
  /\ files (os (install first_app_config pth_state).2) !! "/bundle/support/python37._pth"
     = Some (pth_content py37).
Proof.
  split.
  - refine (proj2 (proj1 (pth_write_idempotent pathlib.posix py37)
                     support_dir first_app_config [] pth_state _ _)).
    vm_compute. reflexivity.
  - destruct (proj1 (proj2 (pth_write_idempotent pathlib.posix py37))
                (fixed_support support_dir) no_install first_app_config pth_state _
                eq_refl) as (target & sb & Ht & Hf).
    injection Ht as <- <-. exact Hf.
Defined.

(** * Further properties of the module *)

(** ** More on the build *)

(** When the harvest and compile commands succeed and the link command
    exits with a non-zero code, all three commands have been run, the
    error says that the app could not be linked, and the console ends
    with the blank line printed before raising. *)
Theorem build_app_link_failure (fl : Flavour) (exec : Call -> OS -> Outcome * OS)
    (app : BaseConfig) (st : State) (h cd l : PurePath) (rc : Z) :
  heat_exe (self st) = Some h ->
  candle_exe (self st) = Some cd ->
  light_exe (self st) = Some l ->
  let harvest := harvest_call fl (self st) app h in
  let compile := compile_call fl (self st) app cd in
  let link := link_call fl (self st) app l in
  let o1 := (exec harvest (os st)).2 in
  let o2 := (exec compile o1).2 in
  (exec harvest (os st)).1 = Exited 0 ->
  (exec compile o1).1 = Exited 0 ->
  (exec link o2).1 = Exited rc -> rc <> 0%Z ->
  let r := build_app fl exec app st in
  r.1 = Raise (BriefcaseCommandError ("Unable to link app " +:+ name app +:+ "."))
  /\ calls r.2 = calls st ++ [harvest; compile; link]
  /\ stdout r.2 = stdout st ++
       [ ""; "[" +:+ name app +:+ "] Building MSI...";
         ""; "Compiling application manifest...";
         ""; "Compiling application installer...";
         ""; "Linking application installer...";
         "" ]
  /\ os r.2 = (exec link o2).2.
Proof.
  intros Hh Hc Hl harvest compile link o1 o2 E1 E2 E3 Hrc r. subst r.
  apply Z.eqb_neq in Hrc.
  unfold build_app, subprocess_run. run_unfold. cbn.
  rewrite Hh. cbn. fold (harvest_call fl (self st) app h). fold harvest.
  destruct (exec harvest (os st)) as [out1 o1'] eqn:X1. cbn in E1, o1. subst out1 o1.
  cbn. rewrite Hc. cbn. fold (compile_call fl (self st) app cd). fold compile.
  destruct (exec compile o1') as [out2 o2'] eqn:X2. cbn in E2, o2. subst out2 o2.
  cbn. rewrite Hl. cbn. fold (link_call fl (self st) app l). fold link.
  destruct (exec link o2') as [out3 o3'] eqn:X3. cbn in E3. subst out3.
  cbn. rewrite Hrc. cbn.
  rewrite <- !app_assoc. cbn. repeat split.
Qed.

Lemma build_app_link_failure_witness :
  (build_app pathlib.posix light_fails first_app_config test_state).1 =
    Raise (BriefcaseCommandError "Unable to link app first.")
  /\ length (calls (build_app pathlib.posix light_fails first_app_config test_state).2)
     = 3%nat.
Proof.
  destruct (build_app_link_failure pathlib.posix light_fails first_app_config test_state
              _ _ _ 3%Z eq_refl eq_refl eq_refl eq_refl eq_refl eq_refl
              ltac:(discriminate)) as (H1 & H2 & _).
  split; [exact H1|]. rewrite H2. reflexivity.
Defined.

(** Neither command changes the command object, and neither touches the
    environment or the file system except through the commands it runs:
    with tools that leave the system as it is, it is left as it is. *)
Theorem commands_keep_self_and_system (fl : Flavour) (exec : Call -> OS -> Outcome * OS)
    (app : BaseConfig) (st : State) :
  self (build_app fl exec app st).2 = self st
  /\ self (run_app fl exec app st).2 = self st
  /\ ((forall call o, (exec call o).2 = o) ->
      os (build_app fl exec app st).2 = os st
      /\ os (run_app fl exec app st).2 = os st).
Proof.
  split; [|split].
  - unfold build_app, subprocess_run. run_unfold. run_cases; reflexivity.
  - unfold run_app, subprocess_run. run_unfold. run_cases; reflexivity.
  - intros Hframe.
    assert (F : forall call o out o', exec call o = (out, o') -> o' = o).
    { intros call o out o' E. rewrite <- (Hframe call o), E. reflexivity. }
    split.
    + unfold build_app, subprocess_run. run_unfold. run_cases;
        repeat match goal with
               | E : exec _ _ = (_, _) |- _ => apply F in E; subst
               end; reflexivity.
    + unfold run_app, subprocess_run. run_unfold. run_cases;
        repeat match goal with
               | E : exec _ _ = (_, _) |- _ => apply F in E; subst
               end; reflexivity.
Qed.

(** A command that cannot be started at all is not a
    [CalledProcessError]: the operating system's error leaves [build_app]
    as it is, not as a [BriefcaseCommandError], and the later commands are
    not run. *)
Theorem build_app_tool_not_started (fl : Flavour) (exec : Call -> OS -> Outcome * OS)
    (app : BaseConfig) (st : State) (h : PurePath) :
  heat_exe (self st) = Some h ->
  let harvest := harvest_call fl (self st) app h in
  let r := build_app fl exec app st in
  ((exec harvest (os st)).1 = NotStarted ->
     r.1 = Raise OSError /\ calls r.2 = calls st ++ [harvest])
  /\ (forall cd,
        candle_exe (self st) = Some cd ->
        let compile := compile_call fl (self st) app cd in
        (exec harvest (os st)).1 = Exited 0 ->
        (exec compile (exec harvest (os st)).2).1 = NotStarted ->
        r.1 = Raise OSError /\ calls r.2 = calls st ++ [harvest; compile]).
Proof.
  intros Hh harvest r.
  assert (T := build_app_trace fl exec app st). cbv zeta in T. fold r in T.
  rewrite Hh in T. cbn [with_tool] in T. fold harvest in T.
  split.
  - intros E. rewrite E in T. cbn [stage] in T. injection T as T1 T2. auto.
  - intros cd Hc compile E1 E2.
    rewrite E1, Hc in T. cbn [stage with_tool Z.eqb] in T. fold compile in T.
    rewrite E2 in T. cbn [stage] in T. injection T as T1 T2. auto.
Qed.

Lemma build_app_tool_not_started_witness :
  (build_app pathlib.posix heat_missing first_app_config test_state).1 = Raise OSError
  /\ length (calls (build_app pathlib.posix heat_missing first_app_config test_state).2)
     = 1%nat.
Proof.
  destruct (proj1 (build_app_tool_not_started pathlib.posix heat_missing first_app_config
                     test_state _ eq_refl) eq_refl) as [H1 H2].
  split; [exact H1|]. rewrite H2. reflexivity.
Defined.

(** A build on a command whose [heat_exe] was never assigned, that is
    without [verify_tools] before it, fails on reading the attribute:
    nothing is run and the system is untouched, though the first progress
    lines are already printed. *)
Theorem build_app_without_tools (fl : Flavour) (exec : Call -> OS -> Outcome * OS)
    (app : BaseConfig) (st : State) :
  heat_exe (self st) = None ->
  let r := build_app fl exec app st in
  r.1 = Raise (AttributeError "heat_exe")
  /\ calls r.2 = calls st
  /\ os r.2 = os st
  /\ stdout r.2 = stdout st ++
       [ ""; "[" +:+ name app +:+ "] Building MSI..."; "";
         "Compiling application manifest..." ].
Proof.
  intros Hh r. subst r.
  unfold build_app, subprocess_run. run_unfold. cbn. rewrite Hh. cbn.
  rewrite <- !app_assoc. repeat split.
Qed.

Lemma build_app_without_tools_witness :
  (build_app pathlib.posix mock_run first_app_config wix_in_cwd).1 =
    Raise (AttributeError "heat_exe")
  /\ calls (build_app pathlib.posix mock_run first_app_config wix_in_cwd).2 = [].
Proof.
  destruct (build_app_without_tools pathlib.posix mock_run first_app_config wix_in_cwd
              eq_refl) as (H1 & H2 & _).
  split; [exact H1 | exact H2].
Defined.

(** ** The tool check and the build together *)

(** Checking twice is checking once: the second run of [verify_tools]
    gives the result of the first and leaves its state. *)
Theorem verify_tools_idempotent (fl : Flavour) (st : State) :
  verify_tools fl (verify_tools fl st).2 = verify_tools fl st.
Proof.
  rewrite (verify_tools_run fl st). cbn [snd].
  rewrite (verify_tools_run fl (tools_assigned fl _ st)).
  reflexivity.
Qed.

(** After a check that succeeded, the build reads the three attributes
    without fail, and the programs it runs are the three files the check
    found: the first one, two or three of heat, candle and light under
    [bin] of the directory named by [WIX]. *)
Theorem build_app_after_verify_tools (fl : Flavour) (exec : Call -> OS -> Outcome * OS)
    (app : BaseConfig) (st : State) :
  (verify_tools fl st).1 = Ok tt ->
  let wix := default "" (environ (os st) !! "WIX") in
  let bin := pathlib.truediv fl (pathlib.Path fl wix) "bin" in
  let harvest := harvest_call fl (self st) app (pathlib.truediv fl bin "heat.exe") in
  let compile := compile_call fl (self st) app (pathlib.truediv fl bin "candle.exe") in
  let link := link_call fl (self st) app (pathlib.truediv fl bin "light.exe") in
  let r := build_app fl exec app (verify_tools fl st).2 in
  Forall (fun call => exists exe rest,
            args call = exe :: rest /\ OS_exists (os st) exe = true)
    [harvest; compile; link]
  /\ (forall attr, r.1 <> Raise (AttributeError attr))
  /\ exists k, (1 <= k <= 3)%nat
       /\ calls r.2 = calls st ++ take k [harvest; compile; link].
Proof.
  intros Hok wix bin harvest compile link r.
  rewrite (verify_tools_run fl st) in Hok. cbn [fst] in Hok. fold wix in Hok.
  destruct (tool_stat fl wix st "heat.exe") eqn:P1; try discriminate.
  destruct (tool_stat fl wix st "light.exe") eqn:P2; try discriminate.
  destruct (tool_stat fl wix st "candle.exe") eqn:P3; try discriminate.
  apply stat_found_exists in P1, P2, P3.
  split.
  { repeat constructor; eexists _, _; (split; [reflexivity|]); assumption. }
  assert (T := build_app_trace fl exec app (verify_tools fl st).2).
  cbv zeta in T. fold r in T.
  rewrite (verify_tools_run fl st) in T. cbn [snd] in T. fold wix in T.
  cbn [tools_assigned set_self self heat_exe candle_exe light_exe with_tool calls os] in T.
  fold bin in T.
  change (harvest_call fl _ app (pathlib.truediv fl bin "heat.exe")) with harvest in T.
  change (compile_call fl _ app (pathlib.truediv fl bin "candle.exe")) with compile in T.
  change (link_call fl _ app (pathlib.truediv fl bin "light.exe")) with link in T.
  unfold stage in T.
  destruct (exec harvest (os st)) as [[rc1|] o1]; cbn [fst snd] in T;
    [destruct (rc1 =? 0)%Z|];
    [destruct (exec compile o1) as [[rc2|] o2]; cbn [fst snd] in T;
       [destruct (rc2 =? 0)%Z|]|..];
    [destruct (exec link o2) as [[rc3|] o3]; cbn [fst snd] in T;
       [destruct (rc3 =? 0)%Z|]|..];
    injection T as T1 T2; rewrite T1, T2.
  all: split; [intros attr; discriminate|].
  all: first [ exists 3%nat; split; [lia|reflexivity]
             | exists 2%nat; split; [lia|reflexivity]
             | exists 1%nat; split; [lia|reflexivity] ].
Qed.

Lemma build_app_after_verify_tools_witness :
  (verify_tools pathlib.posix wix_in_cwd).1 = Ok tt
  /\ forall attr,
       (build_app pathlib.posix mock_run first_app_config
          (verify_tools pathlib.posix wix_in_cwd).2).1 <> Raise (AttributeError attr).
Proof.
  split; [vm_compute; reflexivity|].
  exact (proj1 (proj2 (build_app_after_verify_tools pathlib.posix mock_run
                         first_app_config wix_in_cwd eq_refl))).
Defined.

(** ** More on the support package URL *)

Lemma cut_at (c : ascii) (a a' r r' : string) :
  Str.mem c a = false -> Str.mem c a' = false ->
  a +:+ String c r = a' +:+ String c r' -> a = a' /\ r = r'.
Proof.
  revert a'. induction a as [|x a IH]; intros [|y a'] Ha Ha' H; cbn in *.
  - injection H as H. auto.
  - injection H as H1 H2. subst y. rewrite Ascii.eqb_refl in Ha'. discriminate.
  - injection H as H1 H2. subst x. rewrite Ascii.eqb_refl in Ha. discriminate.
  - injection H as H1 H2. subst y.
    apply orb_false_elim in Ha as [_ Ha]. apply orb_false_elim in Ha' as [_ Ha'].
    destruct (IH a' Ha Ha' H2) as [H3 H4]. subst. auto.
Qed.

Lemma mem_append (c : ascii) (a b : string) :
  Str.mem c (a +:+ b) = Str.mem c a || Str.mem c b.
Proof.
  induction a as [|x a IH]; [reflexivity|].
  change (Str.mem c (String x (a +:+ b)) = Str.mem c (String x a) || Str.mem c b).
  cbn [Str.mem]. rewrite IH. apply orb_assoc.
Qed.

Lemma mem_slash_uint (d : Decimal.uint) :
  Str.mem "/" (NilEmpty.string_of_uint d) = false.
Proof. induction d; simpl; auto. Qed.

Lemma of_N_no_slash (n : N) : Str.mem "/" (Str.of_N n) = false.
Proof.
  unfold Str.of_N, NilZero.string_of_uint.
  destruct (N.to_uint n) eqn:E; try reflexivity; rewrite <- E; apply mem_slash_uint.
Qed.

Lemma python_version_no_slash (vi : version_info) :
  Str.mem "/" (python_version vi) = false.
Proof.
  unfold python_version. rewrite !mem_append, !of_N_no_slash. reflexivity.
Qed.

Lemma python_version_inj (vi vi' : version_info) :
  python_version vi = python_version vi' -> vi = vi'.
Proof.
  destruct vi as [a b c], vi' as [a' b' c']. unfold python_version. cbn [major minor micro].
  intros H.
  apply cut_at_dot in H as [Ha H]; [|apply of_N_no_dot..].
  apply cut_at_dot in H as [Hb Hc]; [|apply of_N_no_dot..].
  apply of_N_inj in Ha, Hb, Hc. congruence.
Qed.

(** The URL tells the release and the architecture: two interpreters get
    the same support package only if their (major, minor, micro) are the
    same and both are 64-bit or neither is. *)
Theorem support_package_url_inj (vi vi' : version_info) (calcsize_P calcsize_P' : N) :
  support_package_url vi calcsize_P = support_package_url vi' calcsize_P' ->
  vi = vi' /\ arch calcsize_P = arch calcsize_P'.
Proof.
  unfold support_package_url. cbv zeta. intros H.
  assert (Hv : python_version vi = python_version vi'
               /\ (if (python_version vi =? "3.7.2")%string then ".post1-embed-" else "-embed-")
                    +:+ arch calcsize_P +:+ ".zip"
                  = (if (python_version vi' =? "3.7.2")%string then ".post1-embed-" else "-embed-")
                    +:+ arch calcsize_P' +:+ ".zip").
  { set (v := python_version vi) in *. set (v' := python_version vi') in *.
    assert (H' : v +:+ String "/" ("python-" +:+ v
                   +:+ (if (v =? "3.7.2")%string then ".post1-embed-" else "-embed-")
                   +:+ arch calcsize_P +:+ ".zip")
                 = v' +:+ String "/" ("python-" +:+ v'
                   +:+ (if (v' =? "3.7.2")%string then ".post1-embed-" else "-embed-")
                   +:+ arch calcsize_P' +:+ ".zip")).
    { destruct (v =? "3.7.2")%string, (v' =? "3.7.2")%string;
        apply (inj (String.app "https://www.python.org/ftp/python/")); exact H. }
    apply cut_at in H' as [Hvv Hrest]; [|apply python_version_no_slash..].
    split; [exact Hvv|]. rewrite <- Hvv in Hrest |- *.
    apply (inj (String.app "python-")) in Hrest.
    apply (inj (String.app v)) in Hrest. exact Hrest. }
  destruct Hv as [Hv Hrest]. split; [apply python_version_inj, Hv|].
  rewrite <- Hv in Hrest.
  unfold arch in *.
  destruct (python_version vi =? "3.7.2")%string,
    (calcsize_P * 8 =? 64)%N, (calcsize_P' * 8 =? 64)%N;
    first [reflexivity | discriminate Hrest].
Qed.

Lemma support_package_url_inj_witness :
  {| major := 3; minor := 8; micro := 1 |} = {| major := 3; minor := 8; micro := 1 |}
  /\ arch 4 = arch 2.
Proof.
  exact (support_package_url_inj {| major := 3; minor := 8; micro := 1 |}
           {| major := 3; minor := 8; micro := 1 |} 4 2 eq_refl).
Defined.

(** The repackaged URL is used for the release (3, 7, 2) and for no
    other: not for 3.7.20, nor for 13.7.2. *)
Theorem post1_url_only_for_372 (vi : version_info) (calcsize_P : N) :
  support_package_url vi calcsize_P =
    "https://www.python.org/ftp/python/" +:+ python_version vi +:+ "/python-"
      +:+ python_version vi +:+ ".post1-embed-" +:+ arch calcsize_P +:+ ".zip"
  <-> vi = {| major := 3; minor := 7; micro := 2 |}.
Proof.
  rewrite <- python_version_372. unfold support_package_url. cbv zeta.
  destruct (String.eqb_spec (python_version vi) "3.7.2") as [E|E].
  - split; auto.
  - split; [|contradiction]. intros H. exfalso.
    apply (inj (String.app "https://www.python.org/ftp/python/")) in H.
    apply (inj (String.app (python_version vi))) in H.
    apply (inj (String.app "/python-")) in H.
    apply (inj (String.app (python_version vi))) in H.
    discriminate H.
Qed.

(** ** More on the [._pth] file *)



(** ** Where the bundle lies *)

Lemma join_snoc (sp : string) (l : list string) (s : string) :
  l <> [] -> Str.join sp (l ++ [s]) = Str.join sp l +:+ sp +:+ s.
Proof.
  induction l as [|x l IH]; [contradiction|]. intros _.
  destruct l as [|y l]; [reflexivity|].
  change (x +:+ sp +:+ Str.join sp ((y :: l) ++ [s])
          = (x +:+ sp +:+ Str.join sp (y :: l)) +:+ sp +:+ s).
  rewrite IH by discriminate. rewrite !append_assoc. reflexivity.
Qed.

Lemma truthy_append (a b : string) : Str.truthy a = true -> Str.truthy (a +:+ b) = true.
Proof. destruct a; [discriminate|reflexivity]. Qed.

Lemma printable_str (fl : Flavour) (p : PurePath) :
  printable fl p -> pathlib.str fl p = pathlib.format_parsed_parts fl p.
Proof. intros (_ & _ & H). unfold pathlib.str. rewrite H. reflexivity. Qed.

Lemma format_truediv_single (fl : Flavour) (p : PurePath) (s : string) :
  printable fl p -> single_component fl s ->
  printable fl (pathlib.truediv fl p s)
  /\ pathlib.format_parsed_parts fl (pathlib.truediv fl p s)
     = pathlib.format_parsed_parts fl p +:+ String (sep fl) "" +:+ s.
Proof.
  intros (Hwf & Hbelow & Ht) Hs.
  assert (Hf : pathlib.format_parsed_parts fl (pathlib.truediv fl p s)
               = pathlib.format_parsed_parts fl p +:+ String (sep fl) "" +:+ s).
  { rewrite (truediv_single fl p s Hs).
    unfold pathlib.format_parsed_parts, below_anchor, wf_path, anchored in *.
    cbn [drv root parts].
    destruct (Str.truthy (drv p) || Str.truthy (root p)).
    - destruct (Hwf eq_refl) as [rest Hrest]. rewrite Hrest in *. cbn [tail app] in *.
      rewrite join_snoc by exact Hbelow. rewrite !append_assoc. reflexivity.
    - apply join_snoc. exact Hbelow. }
  split; [|exact Hf].
  split; [apply truediv_wf; exact Hwf|]. split.
  - rewrite (truediv_single fl p s Hs). unfold below_anchor, anchored in *.
    cbn [drv root parts]. unfold wf_path, anchored in Hwf.
    destruct (Str.truthy (drv p) || Str.truthy (root p)).
    + destruct (Hwf eq_refl) as [rest Hrest]. rewrite Hrest in *. cbn [tail app] in *.
      destruct rest; [contradiction|discriminate].
    + destruct (parts p); [contradiction|discriminate].
  - rewrite Hf. apply truthy_append. exact Ht.
Qed.

Lemma str_truediv_single (fl : Flavour) (p : PurePath) (s : string) :
  printable fl p -> single_component fl s ->
  pathlib.str fl (pathlib.truediv fl p s)
  = pathlib.str fl p +:+ String (sep fl) "" +:+ s.
Proof.
  intros Hp Hs. destruct (format_truediv_single fl p s Hp Hs) as [Hp' Hf].
  rewrite (printable_str fl _ Hp'), (printable_str fl _ Hp). exact Hf.
Qed.

Lemma msi_name_single (formal ver : string) :
  Str.mem "/" (formal +:+ "-" +:+ ver +:+ ".msi") = false ->
  single_component pathlib.posix (formal +:+ "-" +:+ ver +:+ ".msi").
Proof.
  intros Hmem. apply posix_single_component; [| |exact Hmem].
  - destruct formal; discriminate.
  - destruct formal as [|a [|b f]]; discriminate.
Qed.

(** On a POSIX host, for a platform path that is not a bare root and an
    app name without a slash (and neither empty nor a dot), the bundle is
    the directory [<platform path>/<name>], the program that [run_app]
    starts is [SourceDir/python/pythonw.exe] inside it, and the installer,
    when formal name and version have no slash, is the file
    [<platform path>/<formal name>-<version>.msi] beside it. *)
Theorem bundle_layout_posix (c : Command) (app : BaseConfig) :
  printable pathlib.posix (platform_path c) ->
  name app <> "" -> name app <> "." -> Str.mem "/" (name app) = false ->
  let dir := pathlib.str pathlib.posix (platform_path c) in
  pathlib.str pathlib.posix (bundle_path pathlib.posix c app) = dir +:+ "/" +:+ name app
  /\ pathlib.str pathlib.posix (binary_path pathlib.posix c app)
     = dir +:+ "/" +:+ name app +:+ "/SourceDir/python/pythonw.exe"
  /\ (Str.mem "/" (formal_name app +:+ "-" +:+ version app +:+ ".msi") = false ->
      pathlib.str pathlib.posix (distribution_path pathlib.posix c app)
      = dir +:+ "/" +:+ formal_name app +:+ "-" +:+ version app +:+ ".msi").
Proof.
  intros Hp Hne Hdot Hmem dir.
  assert (Hname := posix_single_component (name app) Hne Hdot Hmem).
  assert (Hlit : forall s, s <> "" -> s <> "." -> Str.mem "/" s = false ->
                           single_component pathlib.posix s)
    by exact posix_single_component.
  destruct (format_truediv_single _ _ _ Hp Hname) as [Hp1 _].
  assert (H2 : single_component pathlib.posix "SourceDir") by reflexivity.
  assert (H3 : single_component pathlib.posix "python") by reflexivity.
  assert (H4 : single_component pathlib.posix "pythonw.exe") by reflexivity.
  destruct (format_truediv_single _ _ _ Hp1 H2) as [Hp2 _].
  destruct (format_truediv_single _ _ _ Hp2 H3) as [Hp3 _].
  split; [|split].
  - unfold bundle_path. apply (str_truediv_single _ _ _ Hp Hname).
  - unfold binary_path.
    rewrite (str_truediv_single _ _ _ Hp3 H4), (str_truediv_single _ _ _ Hp2 H3),
      (str_truediv_single _ _ _ Hp1 H2), (str_truediv_single _ _ _ Hp Hname).
    fold dir. cbn [sep pathlib.posix]. rewrite !append_assoc. reflexivity.
  - intros Hmsi. unfold distribution_path.
    apply (str_truediv_single _ _ _ Hp (msi_name_single _ _ Hmsi)).
Qed.

Lemma bundle_layout_posix_witness :
  pathlib.str pathlib.posix (binary_path pathlib.posix build_command first_app_config)
  = "/tmp/pytest-0/windows/first/SourceDir/python/pythonw.exe".
Proof.
  refine (proj1 (proj2 (bundle_layout_posix build_command first_app_config _ _ _ eq_refl))).
  - split; [apply truediv_wf, Path_wf|]. split; [discriminate|reflexivity].
  - discriminate.
  - discriminate.
Defined.

Lemma truediv_empty (fl : Flavour) (p : PurePath) : pathlib.truediv fl p "" = p.
Proof.
  unfold pathlib.truediv, pathlib.join_parsed_parts. cbn.
  rewrite app_nil_r. destruct p; reflexivity.
Qed.

(** [bundle_path] does not confine the bundle to the platform path.  On
    a POSIX host an app name that starts with a slash replaces the
    platform path altogether, and an empty name or a dot adds nothing, so
    that the bundle is the platform directory itself. *)
Theorem bundle_path_not_confined (c : Command) (app : BaseConfig) :
  drv (platform_path c) = "" ->
  ((name app = "" \/ name app = ".") ->
     bundle_path pathlib.posix c app = platform_path c)
  /\ (forall s, name app = String "/" s ->
        bundle_path pathlib.posix c app = pathlib.Path pathlib.posix (name app)
        /\ Str.truthy (root (bundle_path pathlib.posix c app)) = true).
Proof.
  intros Hdrv. unfold bundle_path. split.
  - intros [-> | ->]; [apply truediv_empty|].
    unfold pathlib.truediv, pathlib.join_parsed_parts. cbn.
    rewrite app_nil_r. destruct (platform_path c); reflexivity.
  - intros s ->.
    unfold pathlib.truediv, pathlib.Path, pathlib.parse_parts.
    cbn [rev Datatypes.app pathlib.parse_rev Str.truthy].
    unfold pathlib.normsep. cbn [altsep splitroot pathlib.posix].
    unfold pathlib.posix_splitroot.
    destruct (_ =? 2)%nat; cbn [Str.truthy orb];
      unfold pathlib.join_parsed_parts; cbn [Str.truthy negb andb];
      rewrite Hdrv; cbn; split; reflexivity.
Qed.

Lemma bundle_path_not_confined_witness :
  pathlib.str pathlib.posix (bundle_path pathlib.posix build_command rooted_app)
  = "/srv/first".
Proof.
  destruct (proj2 (bundle_path_not_confined build_command rooted_app eq_refl)
              "srv/first" eq_refl) as [H _].
  rewrite H. reflexivity.
Defined.
